(** * Event fabric of the todo services: consumers, recurrence, publisher, reminder routes

A shallow embedding of
- [services/audit/app/handlers/audit_handler.py],
- [services/recurring/app/handlers/recurrence_handler.py],
- [services/notification/app/handlers/reminder_handler.py],
- [backend/app/services/event_publisher.py],
- [backend/app/routers/reminders.py], [backend/app/routers/internal.py],
- [backend/app/middleware/auth.py] ([verify_user_access]),
together with the parts of the Python library they lean on ([uuid.UUID],
[datetime], [dateutil.relativedelta]).

Conventions.
- A Python value is a [pyval]; text is a [string] of ASCII characters.
  JSON numbers are modelled as integers.
- A Python exception is an [exn]; every class listed derives from
  [Exception], so [except Exception] catches each of them.  Signals that
  derive from [BaseException] only (interpreter exit, task cancellation)
  are outside the model.
- A computation that may raise is an [outcome]; stateful code is a
  function from the state to an [outcome] and the new state.
- f-strings are kept as their template and the values interpolated. *)

From Stdlib Require Import ZArith List String Ascii Lia Bool ZifyBool.
From stdpp Require Import base option gmap.
Import ListNotations.

Set Warnings "-register-all".
Local Open Scope string_scope.
Local Open Scope Z_scope.

Infix "+:+" := String.append (at level 60, right associativity).

(** ** Python data *)

(** [datetime.datetime]: the calendar fields and, for an aware value, the
    offset of its [tzinfo] from UTC in seconds. *)
Record datetime : Type := mkDatetime {
  year : Z; month : Z; day : Z;
  hour : Z; minute : Z; second : Z; microsecond : Z;
  tzinfo : option Z
}.

Inductive pyval : Type :=
| PNone
| PBool (b : bool)
| PInt (z : Z)
| PStr (s : string)
| PList (l : list pyval)
| PDict (d : list (string * pyval))
| PUUID (u : N)
| PDatetime (t : datetime).

(** [bool(v)]: what [if v] and [not v] test. *)
Definition truthy (v : pyval) : bool :=
  match v with
  | PNone => false
  | PBool b => b
  | PInt z => negb (z =? 0)
  | PStr s => negb (String.eqb s "")
  | PList l => match l with [] => false | _ => true end
  | PDict d => match d with [] => false | _ => true end
  | PUUID _ => true
  | PDatetime _ => true
  end.

(** [v == "literal"] for a string literal. *)
Definition eq_str (v : pyval) (lit : string) : bool :=
  match v with
  | PStr s => String.eqb s lit
  | _ => false
  end.

Definition isinstance_str (v : pyval) : bool :=
  match v with PStr _ => true | _ => false end.

(** A formatted message: the template of the f-string and its arguments. *)
Record fmt : Type := Fmt { template : string; fargs : list pyval }.

Inductive exn : Type :=
| ValueError
| AttributeError
| TypeError
| OverflowError
| ValidationError
| IntegrityError
| TransportError
| HTTPException (status_code : Z) (detail : fmt).

Inductive outcome (A : Type) : Type :=
| Return (a : A)
| Raise (e : exn).
Arguments Return {A} a.
Arguments Raise {A} e.

Definition obind {A B : Type} (m : outcome A) (k : A -> outcome B) : outcome B :=
  match m with
  | Return a => k a
  | Raise e => Raise e
  end.

Notation "'let+' x ':=' m 'in' k" := (obind m (fun x => k))
  (at level 10, x name, m at level 100, k at level 200).

(** [try: m  except (classes): h] on a computation without state. *)
Definition otry {A : Type} (m : outcome A) (handles : exn -> bool)
  (h : exn -> outcome A) : outcome A :=
  match m with
  | Raise e => if handles e then h e else Raise e
  | r => r
  end.

(** [except (ValueError, AttributeError)] *)
Definition ValueError_or_AttributeError (e : exn) : bool :=
  match e with
  | ValueError | AttributeError => true
  | _ => false
  end.

(** [except Exception] *)
Definition Exception (e : exn) : bool := true.

(** Stateful code over a state [W]. *)
Definition Py (W A : Type) : Type := W -> outcome A * W.

Definition ret {W A : Type} (a : A) : Py W A := fun w => (Return a, w).
Definition raise {W A : Type} (e : exn) : Py W A := fun w => (Raise e, w).
Definition lift {W A : Type} (o : outcome A) : Py W A := fun w => (o, w).

Definition bind {W A B : Type} (m : Py W A) (k : A -> Py W B) : Py W B :=
  fun w =>
    match m w with
    | (Return a, w') => k a w'
    | (Raise e, w') => (Raise e, w')
    end.

Notation "'let*' x ':=' m 'in' k" := (bind m (fun x => k))
  (at level 10, x name, m at level 100, k at level 200).
Notation "m ;; k" := (bind m (fun _ => k))
  (at level 100, right associativity).

(** [try: m  except (classes) as e: h e]; the state reached when the
    exception was raised is the one the handler starts from. *)
Definition try_except {W A : Type} (m : Py W A) (handles : exn -> bool)
  (h : exn -> Py W A) : Py W A :=
  fun w =>
    match m w with
    | (Raise e, w') => if handles e then h e w' else (Raise e, w')
    | r => r
    end.

(** Logging *)
Inductive level : Type := INFO | WARNING | ERROR.
Record LogRecord : Type := mkLog { lvl : level; msg : fmt }.

(** An HTTP exchange as its caller sees it: a response, or the exception
    the client raised. *)
Inductive http_outcome : Type :=
| Response (status_code : Z) (text : string)
| Failed (e : exn).

(** [v.replace(old, new)]: a [str] method; [datetime.replace] takes
    calendar fields and refuses text, other values have no such method. *)
Definition py_str_replace (v : pyval) (f : string -> string) : outcome string :=
  match v with
  | PStr s => Return (f s)
  | PDatetime _ => Raise TypeError
  | _ => Raise AttributeError
  end.

(** Looking a key up in a dict. *)
Fixpoint dict_lookup (d : list (string * pyval)) (k : string) : option pyval :=
  match d with
  | [] => None
  | (k', v) :: rest => if String.eqb k' k then Some v else dict_lookup rest k
  end.

(** [obj.get(k, default)]: only a dict has the method. *)
Definition py_get (obj : pyval) (k : string) (default : pyval) : outcome pyval :=
  match obj with
  | PDict d =>
      match dict_lookup d k with
      | Some v => Return v
      | None => Return default
      end
  | _ => Raise AttributeError
  end.

(** ** Text *)

Module Text.

(** [s.replace(old, new)] for a non-empty [old]: leftmost occurrences,
    not overlapping.  [skip] counts the characters of a match still to
    pass over. *)
Fixpoint replace_go (old new : string) (skip : nat) (s : string) : string :=
  match s with
  | EmptyString => EmptyString
  | String c s' =>
      match skip with
      | S k => replace_go old new k s'
      | O =>
          if String.prefix old s
          then new +:+ replace_go old new (Nat.pred (String.length old)) s'
          else String c (replace_go old new O s')
      end
  end.

Definition replace (old new s : string) : string := replace_go old new O s.

Definition mem_char (c : ascii) (cs : list ascii) : bool :=
  existsb (Ascii.eqb c) cs.

Fixpoint lstrip_list (cs : list ascii) (l : list ascii) : list ascii :=
  match l with
  | c :: l' => if mem_char c cs then lstrip_list cs l' else l
  | [] => []
  end.

(** [s.strip(chars)] *)
Definition strip (chars : string) (s : string) : string :=
  let cs := list_ascii_of_string chars in
  string_of_list_ascii
    (rev (lstrip_list cs (rev (lstrip_list cs (list_ascii_of_string s))))).

Definition digit_val (c : ascii) : option Z :=
  let n := Z.of_N (N_of_ascii c) in
  if (48 <=? n) && (n <=? 57) then Some (n - 48) else None.

Definition hex_val (c : ascii) : option Z :=
  let n := Z.of_N (N_of_ascii c) in
  if (48 <=? n) && (n <=? 57) then Some (n - 48)
  else if (97 <=? n) && (n <=? 102) then Some (n - 87)
  else if (65 <=? n) && (n <=? 70) then Some (n - 55)
  else None.

(** [Py_ISSPACE]: tab, newline, vertical tab, form feed, carriage return,
    space. *)
Definition is_space (c : ascii) : bool :=
  let n := Z.of_N (N_of_ascii c) in
  ((9 <=? n) && (n <=? 13)) || (n =? 32).

Definition digit_char (d : Z) : ascii := ascii_of_N (Z.to_N (48 + d)).

(** [%02d], [%04d], [%06d] of a number in range. *)
Definition pad2 (z : Z) : string :=
  String (digit_char (z / 10 mod 10)) (String (digit_char (z mod 10)) "").
Definition pad4 (z : Z) : string := pad2 (z / 100) +:+ pad2 (z mod 100).
Definition pad6 (z : Z) : string := pad2 (z / 10000) +:+ pad4 (z mod 10000).

End Text.

(** ** [uuid.UUID] *)

Module PyUUID.
  Import Text.

(** The digit run of [int(s, 16)]: hexadecimal digits with single
    underscores between them.  Returns the value, whether a digit was
    seen, whether the run ended on an underscore, and what follows. *)
Fixpoint scan_hex (prev_us seen : bool) (acc : Z) (l : list ascii)
  : option (Z * bool * bool * list ascii) :=
  match l with
  | [] => Some (acc, seen, prev_us, [])
  | c :: l' =>
      match hex_val c with
      | Some v => scan_hex false true (acc * 16 + v) l'
      | None =>
          if Ascii.eqb c "_"%char
          then if prev_us then None else scan_hex true seen acc l'
          else Some (acc, seen, prev_us, l)
      end
  end.

(** [int(s, 16)]: surrounding white space, a sign, a [0x] prefix and
    underscores between digits are accepted. [None] stands for
    [ValueError]. *)
Definition int16 (s : string) : option Z :=
  let l := lstrip_list (list_ascii_of_string (String "009" (String "010"
             (String "011" (String "012" (String "013" " ")))))) (list_ascii_of_string s) in
  let '(sign, l) :=
    match l with
    | "+"%char :: r => (1, r)
    | "-"%char :: r => (-1, r)
    | _ => (1, l)
    end in
  let l :=
    match l with
    | "0"%char :: x :: r =>
        if Ascii.eqb x "x"%char || Ascii.eqb x "X"%char
        then match r with "_"%char :: r' => r' | _ => r end
        else l
    | _ => l
    end in
  match l with
  | "_"%char :: _ => None
  | _ =>
      match scan_hex false false 0 l with
      | Some (v, true, false, rest) =>
          if forallb is_space rest then Some (sign * v) else None
      | _ => None
      end
  end.

(** [UUID(hex)] with one positional argument. *)
Definition UUID (hex : pyval) : outcome N :=
  match hex with
  | PNone => Raise TypeError
  | PStr hex =>
      let hex := replace "uuid:" "" (replace "urn:" "" hex) in
      let hex := replace "-" "" (strip "{}" hex) in
      if negb (Nat.eqb (String.length hex) 32) then Raise ValueError
      else
        match int16 hex with
        | None => Raise ValueError
        | Some n =>
            if (0 <=? n) && (n <? 2 ^ 128) then Return (Z.to_N n)
            else Raise ValueError
        end
  | PDatetime _ => Raise TypeError
  | _ => Raise AttributeError
  end.

Definition hex_char (d : Z) : ascii :=
  if d <? 10 then ascii_of_N (Z.to_N (48 + d)) else ascii_of_N (Z.to_N (87 + d)).

(** The [k] lowest hexadecimal digits of [n], most significant first. *)
Fixpoint hex_digits (k : nat) (n : Z) (acc : string) : string :=
  match k with
  | O => acc
  | S k' => hex_digits k' (n / 16) (String (hex_char (n mod 16)) acc)
  end.

(** [str(u)]: 8-4-4-4-12 lower-case hexadecimal digits. *)
Definition str (u : N) : string :=
  let h := hex_digits 32 (Z.of_N u) "" in
  substring 0 8 h +:+ "-" +:+ substring 8 4 h +:+ "-" +:+ substring 12 4 h
    +:+ "-" +:+ substring 16 4 h +:+ "-" +:+ substring 20 12 h.

End PyUUID.

(** ** [datetime], [timedelta], [relativedelta] *)

Module PyDatetime.
  Import Text.

Definition MINYEAR : Z := 1.
Definition MAXYEAR : Z := 9999.
Definition MAXORDINAL : Z := 3652059.

Definition is_leap (y : Z) : bool :=
  (y mod 4 =? 0) && (negb (y mod 100 =? 0) || (y mod 400 =? 0)).

(** [_DAYS_IN_MONTH] *)
Definition DAYS_IN_MONTH (m : Z) : Z :=
  match m with
  | 1 => 31 | 2 => 28 | 3 => 31 | 4 => 30 | 5 => 31 | 6 => 30
  | 7 => 31 | 8 => 31 | 9 => 30 | 10 => 31 | 11 => 30 | 12 => 31
  | _ => -1
  end.

(** [_DAYS_BEFORE_MONTH] *)
Definition DAYS_BEFORE_MONTH (m : Z) : Z :=
  match m with
  | 1 => 0 | 2 => 31 | 3 => 59 | 4 => 90 | 5 => 120 | 6 => 151
  | 7 => 181 | 8 => 212 | 9 => 243 | 10 => 273 | 11 => 304 | 12 => 334
  | _ => -1
  end.

Definition b2z (b : bool) : Z := if b then 1 else 0.

Definition days_in_month (y m : Z) : Z :=
  if (m =? 2) && is_leap y then 29 else DAYS_IN_MONTH m.

Definition days_before_year (y : Z) : Z :=
  let y := y - 1 in y * 365 + y / 4 - y / 100 + y / 400.

Definition days_before_month (y m : Z) : Z :=
  DAYS_BEFORE_MONTH m + b2z ((m >? 2) && is_leap y).

Definition ymd2ord (y m d : Z) : Z :=
  days_before_year y + days_before_month y m + d.

Definition ord2ymd (n : Z) : Z * Z * Z :=
  let n := n - 1 in
  let n400 := n / 146097 in
  let n := n mod 146097 in
  let y := n400 * 400 + 1 in
  let n100 := n / 36524 in
  let n := n mod 36524 in
  let n4 := n / 1461 in
  let n := n mod 1461 in
  let n1 := n / 365 in
  let n := n mod 365 in
  let y := y + n100 * 100 + n4 * 4 + n1 in
  if (n1 =? 4) || (n100 =? 4) then (y - 1, 12, 31)
  else
    let leapyear := (n1 =? 3) && (negb (n4 =? 24) || (n100 =? 3)) in
    let m := Z.shiftr (n + 50) 5 in
    let preceding := DAYS_BEFORE_MONTH m + b2z ((m >? 2) && leapyear) in
    if preceding >? n then
      let m := m - 1 in
      let preceding :=
        preceding - (DAYS_IN_MONTH m + b2z ((m =? 2) && leapyear)) in
      (y, m, n - preceding + 1)
    else (y, m, n - preceding + 1).

Definition toordinal (t : datetime) : Z := ymd2ord (year t) (month t) (day t).

(** The checks of the [datetime] constructor on the calendar fields. *)
Definition valid_date (y m d : Z) : bool :=
  (MINYEAR <=? y) && (y <=? MAXYEAR) && (1 <=? m) && (m <=? 12)
  && (1 <=? d) && (d <=? days_in_month y m).

Definition valid_time (h mi s us : Z) : bool :=
  (0 <=? h) && (h <=? 23) && (0 <=? mi) && (mi <=? 59)
  && (0 <=? s) && (s <=? 59) && (0 <=? us) && (us <=? 999999).

Definition valid (t : datetime) : bool :=
  valid_date (year t) (month t) (day t)
  && valid_time (hour t) (minute t) (second t) (microsecond t).

(** [t.replace(year=y, month=m, day=d)] *)
Definition replace_ymd (t : datetime) (y m d : Z) : outcome datetime :=
  if valid_date y m d
  then Return (mkDatetime y m d (hour t) (minute t) (second t)
                 (microsecond t) (tzinfo t))
  else Raise ValueError.

(** [t.replace(tzinfo=tz)] *)
Definition replace_tzinfo (t : datetime) (tz : option Z) : datetime :=
  mkDatetime (year t) (month t) (day t) (hour t) (minute t) (second t)
    (microsecond t) tz.

(** [t + timedelta(days=k)] *)
Definition add_days (t : datetime) (k : Z) : outcome datetime :=
  let o := toordinal t + k in
  if (0 <? o) && (o <=? MAXORDINAL) then
    let '(y, m, d) := ord2ymd o in
    Return (mkDatetime y m d (hour t) (minute t) (second t)
              (microsecond t) (tzinfo t))
  else Raise OverflowError.

(** [dateutil.relativedelta.relativedelta(months=.., days=..)]; the
    keyword [weeks=w] is stored as [days = 7 * w]. *)
Record relativedelta : Type := mkRelativedelta { months : Z; days : Z }.

(** [relativedelta.__radd__]: shift the month, clamp the day to the
    length of the target month, then add the days. *)
Definition relativedelta_add (t : datetime) (r : relativedelta)
  : outcome datetime :=
  let y := year t in
  let m := month t in
  let '(y, m) :=
    if months r =? 0 then (y, m)
    else
      let m := m + months r in
      if m >? 12 then (y + 1, m - 12)
      else if m <? 1 then (y - 1, m + 12)
      else (y, m) in
  let d := Z.min (days_in_month y m) (day t) in
  let+ repl := replace_ymd t y m d in
  add_days repl (days r).

(** Microseconds since the ordinal origin, in UTC for an aware value. *)
Definition instant (t : datetime) (offset : Z) : Z :=
  ((toordinal t * 86400 + hour t * 3600 + minute t * 60 + second t - offset)
   * 1000000) + microsecond t.

(** [a <= b]: comparing a naive with an aware value is a [TypeError]. *)
Definition le (a b : datetime) : outcome bool :=
  match tzinfo a, tzinfo b with
  | None, None => Return (instant a 0 <=? instant b 0)
  | Some oa, Some ob => Return (instant a oa <=? instant b ob)
  | _, _ => Raise TypeError
  end.

(** *** Parsing and printing *)

Definition two_digits (l : list ascii) : option (Z * list ascii) :=
  match l with
  | a :: b :: r =>
      match digit_val a, digit_val b with
      | Some x, Some y => Some (10 * x + y, r)
      | _, _ => None
      end
  | _ => None
  end.

Definition four_digits (l : list ascii) : option (Z * list ascii) :=
  match two_digits l with
  | Some (hi, r) =>
      match two_digits r with
      | Some (lo, r') => Some (100 * hi + lo, r')
      | None => None
      end
  | None => None
  end.

(** The leading run of decimal digits: its value and length. *)
Fixpoint digit_run (acc : Z) (n : nat) (l : list ascii)
  : Z * nat * list ascii :=
  match l with
  | c :: l' =>
      match digit_val c with
      | Some v => digit_run (10 * acc + v) (S n) l'
      | None => (acc, n, l)
      end
  | [] => (acc, n, l)
  end.

(** [.fff] or [.ffffff] *)
Definition fraction (l : list ascii) : option (Z * list ascii) :=
  match digit_run 0 0 l with
  | (v, 3%nat, r) => Some (v * 1000, r)
  | (v, 6%nat, r) => Some (v, r)
  | _ => None
  end.

(** [HH[:MM[:SS[.fff[fff]]]]] *)
Definition hh_mm_ss_ff (l : list ascii)
  : option (Z * Z * Z * Z * list ascii) :=
  match two_digits l with
  | None => None
  | Some (h, r) =>
      match r with
      | ":"%char :: r1 =>
          match two_digits r1 with
          | None => None
          | Some (mi, r2) =>
              match r2 with
              | ":"%char :: r3 =>
                  match two_digits r3 with
                  | None => None
                  | Some (s, r4) =>
                      match r4 with
                      | "."%char :: r5 =>
                          match fraction r5 with
                          | Some (us, r6) => Some (h, mi, s, us, r6)
                          | None => None
                          end
                      | _ => Some (h, mi, s, 0, r4)
                      end
                  end
              | _ => Some (h, mi, 0, 0, r2)
              end
          end
      | _ => Some (h, 0, 0, 0, r)
      end
  end.

(** [(+|-)HH:MM[:SS]] up to the end of the text, as seconds east of UTC;
    an offset of a whole day or more is refused by [timezone]. *)
Definition tz_offset (l : list ascii) : option Z :=
  match l with
  | sg :: r =>
      let sign := if Ascii.eqb sg "+"%char then Some 1
                  else if Ascii.eqb sg "-"%char then Some (-1) else None in
      match sign, two_digits r with
      | Some sgn, Some (h, ":"%char :: r1) =>
          match two_digits r1 with
          | Some (mi, []) =>
              let off := h * 3600 + mi * 60 in
              if off <? 86400 then Some (sgn * off) else None
          | Some (mi, ":"%char :: r2) =>
              match two_digits r2 with
              | Some (s, []) =>
                  let off := h * 3600 + mi * 60 + s in
                  if off <? 86400 then Some (sgn * off) else None
              | _ => None
              end
          | _ => None
          end
      | _, _ => None
      end
  | [] => None
  end.

(** [datetime.fromisoformat] on the grammar
    [YYYY-MM-DD[*HH[:MM[:SS[.fff[fff]]]][(+|-)HH:MM[:SS]]]], where [*] is
    any one character; every other text is a [ValueError], and so is a
    field out of range. *)
Definition fromisoformat (s : string) : outcome datetime :=
  let build y m d h mi sec us tz :=
    if valid_date y m d && valid_time h mi sec us
    then Return (mkDatetime y m d h mi sec us tz)
    else Raise ValueError in
  match four_digits (list_ascii_of_string s) with
  | Some (y, "-"%char :: r1) =>
      match two_digits r1 with
      | Some (m, "-"%char :: r2) =>
          match two_digits r2 with
          | Some (d, []) => build y m d 0 0 0 0 None
          | Some (d, _ :: r3) =>
              match hh_mm_ss_ff r3 with
              | Some (h, mi, sec, us, []) => build y m d h mi sec us None
              | Some (h, mi, sec, us, r4) =>
                  match tz_offset r4 with
                  | Some off => build y m d h mi sec us (Some off)
                  | None => Raise ValueError
                  end
              | None => Raise ValueError
              end
          | None => Raise ValueError
          end
      | _ => Raise ValueError
      end
  | _ => Raise ValueError
  end.

(** [t.isoformat()] *)
Definition isoformat (t : datetime) : string :=
  pad4 (year t) +:+ "-" +:+ pad2 (month t) +:+ "-" +:+ pad2 (day t)
  +:+ "T" +:+ pad2 (hour t) +:+ ":" +:+ pad2 (minute t) +:+ ":"
  +:+ pad2 (second t)
  +:+ (if microsecond t =? 0 then "" else "." +:+ pad6 (microsecond t))
  +:+ match tzinfo t with
      | None => ""
      | Some off =>
          let a := Z.abs off in
          (if off <? 0 then "-" else "+")
          +:+ pad2 (a / 3600) +:+ ":" +:+ pad2 (a mod 3600 / 60)
          +:+ (if a mod 60 =? 0 then "" else ":" +:+ pad2 (a mod 60))
      end.

End PyDatetime.

(** ** The consuming services *)

(** What the three consumers share: the reply to the broker, the
    [ProcessedEvent] ledger, the session and the service state. *)
Module Consumer.
  Import PyDatetime.

(** [{"status": "SUCCESS" | "RETRY" | "DROP"}] *)
Inductive Status : Type := SUCCESS | RETRY | DROP.

Record ProcessedEvent : Type := mkProcessedEvent {
  event_id : N;
  service_name : string;
  processed_at : datetime
}.

Record AuditEntry : Type := mkAuditEntry {
  ae_id : N;
  ae_event_type : pyval;
  ae_task_id : pyval;
  ae_user_id : pyval;
  ae_event_data : pyval;
  ae_timestamp : datetime
}.

Inductive row : Type :=
| RowProcessed (p : ProcessedEvent)
| RowAudit (a : AuditEntry).

(** A [Session]: the committed tables and the objects added since the
    last commit.  [processed_event] is keyed by its primary key. *)
Record Session : Type := mkSession {
  processed : gmap N ProcessedEvent;
  audit : list AuditEntry;
  pending : list row
}.

(** An outbound request with a JSON body. *)
Record Request : Type := mkRequest { url : fmt; body : pyval }.

Record World : Type := mkWorld {
  session : Session;
  log : list LogRecord;
  sent : list Request
}.

(** What the service reads from outside: the clock, [uuid4()], the
    answer of the HTTP peer, and its settings. *)
Record Env : Type := mkEnv {
  clock : datetime;
  uuid4 : N;
  http_post : Request -> http_outcome;
  DAPR_HTTP_PORT : Z;
  BACKEND_APP_ID : string
}.

(** [datetime.now(timezone.utc)] *)
Definition now (env : Env) : datetime := replace_tzinfo (clock env) (Some 0).

Definition logger (l : level) (m : fmt) : Py World unit :=
  fun w => (Return tt, mkWorld (session w) (log w ++ [mkLog l m]) (sent w)).

Definition with_session (f : Session -> Session) : Py World unit :=
  fun w => (Return tt, mkWorld (f (session w)) (log w) (sent w)).

(** [session.get(ProcessedEvent, u)] *)
Definition session_get (u : N) : Py World (option ProcessedEvent) :=
  fun w => (Return (processed (session w) !! u), w).

(** [session.add(obj)] *)
Definition session_add (r : row) : Py World unit :=
  with_session (fun s => mkSession (processed s) (audit s) (pending s ++ [r])).

(** Inserting the pending rows; a second row for a primary key of
    [processed_event] is refused. *)
Fixpoint insert_rows (rows : list row) (p : gmap N ProcessedEvent)
  (a : list AuditEntry) : option (gmap N ProcessedEvent * list AuditEntry) :=
  match rows with
  | [] => Some (p, a)
  | RowProcessed e :: rest =>
      match p !! event_id e with
      | Some _ => None
      | None => insert_rows rest (<[event_id e := e]> p) a
      end
  | RowAudit e :: rest => insert_rows rest p (a ++ [e])
  end.

(** [session.commit()]: all pending rows or none. *)
Definition session_commit : Py World unit :=
  fun w =>
    let s := session w in
    match insert_rows (pending s) (processed s) (audit s) with
    | Some (p, a) =>
        (Return tt, mkWorld (mkSession p a []) (log w) (sent w))
    | None =>
        (Raise IntegrityError,
         mkWorld (mkSession (processed s) (audit s) []) (log w) (sent w))
    end.

(** [await client.post(url, json=body)] *)
Definition post (env : Env) (r : Request) : Py World (Z * string) :=
  fun w =>
    let w' := mkWorld (session w) (log w) (sent w ++ [r]) in
    match http_post env r with
    | Response c t => (Return (c, t), w')
    | Failed e => (Raise e, w')
    end.

(** [ProcessedEvent(event_id=u, service_name=name)] *)
Definition new_processed (env : Env) (u : N) (name : string) : ProcessedEvent :=
  mkProcessedEvent u name (now env).

End Consumer.

Module Audit.
  Import Consumer PyDatetime.

Definition SERVICE_NAME : string := "audit-service".

Definition VALID_EVENT_TYPES : list string :=
  ["created"; "updated"; "completed"; "deleted"].

(** [v not in VALID_EVENT_TYPES]: a list or a dict cannot be hashed. *)
Definition not_in_valid_event_types (v : pyval) : outcome bool :=
  match v with
  | PStr s => Return (negb (existsb (String.eqb s) VALID_EVENT_TYPES))
  | PList _ | PDict _ => Raise TypeError
  | _ => Return true
  end.

Definition handle_task_event (env : Env) (event_data : pyval)
  : Py World Status :=
  let* event_id := lift (py_get event_data "id" PNone) in
  if negb (truthy event_id) then
    logger WARNING (Fmt "Received event without id, skipping" []) ;;
    ret DROP
  else
  let* u := lift (PyUUID.UUID event_id) in
  let* existing := session_get u in
  match existing with
  | Some _ =>
      logger INFO (Fmt "Event {event_id} already processed, skipping" [event_id]) ;;
      ret SUCCESS
  | None =>
  let* data := lift (py_get event_data "data" (PDict [])) in
  let* event_type := lift (py_get data "event_type" PNone) in
  let* task_id := lift (py_get data "task_id" PNone) in
  let* user_id := lift (py_get data "user_id" PNone) in
  let* timestamp_str := lift (py_get data "timestamp" PNone) in
  if negb (truthy event_type) || negb (truthy task_id) || negb (truthy user_id)
  then
    logger WARNING (Fmt "Event {event_id} missing required fields, dropping" [event_id]) ;;
    ret DROP
  else
  let* unknown := lift (not_in_valid_event_types event_type) in
  if unknown then
    logger WARNING (Fmt "Unknown event_type '{event_type}', dropping" [event_type]) ;;
    ret DROP
  else
  let* timestamp :=
    lift (otry
            (if truthy timestamp_str then
               let+ s := py_str_replace timestamp_str (Text.replace "Z" "+00:00") in
               fromisoformat s
             else Return (now env))
            ValueError_or_AttributeError
            (fun _ => Return (now env))) in
  let* task_uuid :=
    lift (if isinstance_str task_id
          then let+ t := PyUUID.UUID task_id in Return (PUUID t)
          else Return task_id) in
  let audit_entry :=
    mkAuditEntry (uuid4 env) event_type task_uuid user_id data timestamp in
  let* u' := lift (PyUUID.UUID event_id) in
  let processed := new_processed env u' SERVICE_NAME in
  session_add (RowAudit audit_entry) ;;
  session_add (RowProcessed processed) ;;
  session_commit ;;
  logger INFO (Fmt "Audit entry created: event_type={event_type}, task_id={task_id}, user_id={user_id}"
                 [event_type; task_id; user_id]) ;;
  ret SUCCESS
  end.

End Audit.

Module Recurring.
  Import Consumer PyDatetime.

Definition SERVICE_NAME : string := "recurring-service".

Definition compute_next_due_date (env : Env)
  (current_due_at : pyval) (recurrence_rule : pyval) : Py World string :=
  let* base :=
    lift (if truthy current_due_at then
            otry
              (let+ s := py_str_replace current_due_at (Text.replace "Z" "+00:00") in
               fromisoformat s)
              ValueError_or_AttributeError
              (fun _ => Return (now env))
          else Return (now env)) in
  let* next_date :=
    if eq_str recurrence_rule "daily" then
      lift (relativedelta_add base (mkRelativedelta 0 1))
    else if eq_str recurrence_rule "weekly" then
      lift (relativedelta_add base (mkRelativedelta 0 7))
    else if eq_str recurrence_rule "monthly" then
      lift (relativedelta_add base (mkRelativedelta 1 0))
    else
      logger WARNING (Fmt "Unknown recurrence_rule '{recurrence_rule}', defaulting to daily"
                        [recurrence_rule]) ;;
      lift (relativedelta_add base (mkRelativedelta 0 1)) in
  ret (isoformat next_date).

(** Recording the event as processed: add the ledger row and commit. *)
Definition record_processed (env : Env) (event_id : pyval) : Py World unit :=
  let* u := lift (PyUUID.UUID event_id) in
  session_add (RowProcessed (new_processed env u SERVICE_NAME)) ;;
  session_commit.

Definition handle_task_event (env : Env) (event_data : pyval)
  : Py World Status :=
  let* event_id := lift (py_get event_data "id" PNone) in
  if negb (truthy event_id) then
    logger WARNING (Fmt "Received event without id, skipping" []) ;;
    ret DROP
  else
  let* u := lift (PyUUID.UUID event_id) in
  let* existing := session_get u in
  match existing with
  | Some _ =>
      logger INFO (Fmt "Event {event_id} already processed, skipping" [event_id]) ;;
      ret SUCCESS
  | None =>
  let* data := lift (py_get event_data "data" (PDict [])) in
  let* event_type := lift (py_get data "event_type" PNone) in
  let* task_data := lift (py_get data "task_data" (PDict [])) in
  let* task_id := lift (py_get data "task_id" PNone) in
  let* user_id := lift (py_get data "user_id" PNone) in
  let* is_recurring := lift (py_get task_data "is_recurring" (PBool false)) in
  if negb (eq_str event_type "completed") || negb (truthy is_recurring) then
    record_processed env event_id ;;
    ret SUCCESS
  else
  let* recurrence_rule := lift (py_get task_data "recurrence_rule" PNone) in
  if negb (truthy recurrence_rule) then
    logger WARNING (Fmt "Recurring task {task_id} has no recurrence_rule, skipping" [task_id]) ;;
    record_processed env event_id ;;
    ret SUCCESS
  else
  let* current_due_at := lift (py_get task_data "due_at" PNone) in
  let* next_due_at := compute_next_due_date env current_due_at recurrence_rule in
  let* title := lift (py_get task_data "title" (PStr "")) in
  let* description := lift (py_get task_data "description" PNone) in
  let* priority := lift (py_get task_data "priority" PNone) in
  let* tags := lift (py_get task_data "tags" (PList [])) in
  let new_task_payload :=
    PDict [("title", title); ("description", description);
           ("priority", priority); ("tags", tags);
           ("due_at", PStr next_due_at); ("is_recurring", PBool true);
           ("recurrence_rule", recurrence_rule)] in
  let dapr_url :=
    Fmt "http://localhost:{DAPR_HTTP_PORT}/v1.0/invoke/{BACKEND_APP_ID}/method/api/{user_id}/tasks"
      [PInt (DAPR_HTTP_PORT env); PStr (BACKEND_APP_ID env); user_id] in
  let* early :=
    try_except
      (let* response := post env (mkRequest dapr_url new_task_payload) in
       if (fst response =? 200) || (fst response =? 201) then
         logger INFO (Fmt "Created next recurring task for user={user_id}, original_task={task_id}, next_due_at={next_due_at}"
                        [user_id; task_id; PStr next_due_at]) ;;
         ret None
       else
         logger ERROR (Fmt "Failed to create recurring task: {status_code} - {text}"
                         [PInt (fst response); PStr (snd response)]) ;;
         ret (Some RETRY))
      Exception
      (fun e =>
         logger ERROR (Fmt "Error creating recurring task: {e}" []) ;;
         ret (Some RETRY)) in
  match early with
  | Some st => ret st
  | None =>
      record_processed env event_id ;;
      ret SUCCESS
  end
  end.

End Recurring.

Module Notification.
  Import Consumer.

Definition SERVICE_NAME : string := "notification-service".

Definition handle_reminder_event (env : Env) (event_data : pyval)
  : Py World Status :=
  let* event_id := lift (py_get event_data "id" PNone) in
  if negb (truthy event_id) then
    logger WARNING (Fmt "Received event without id, skipping" []) ;;
    ret DROP
  else
  let* u := lift (PyUUID.UUID event_id) in
  let* existing := session_get u in
  match existing with
  | Some _ =>
      logger INFO (Fmt "Event {event_id} already processed, skipping" [event_id]) ;;
      ret SUCCESS
  | None =>
  let* data := lift (py_get event_data "data" (PDict [])) in
  let* reminder_id := lift (py_get data "reminder_id" PNone) in
  let* task_id := lift (py_get data "task_id" PNone) in
  let* title := lift (py_get data "title" PNone) in
  let* user_id := lift (py_get data "user_id" PNone) in
  let* due_at := lift (py_get data "due_at" PNone) in
  let* remind_at := lift (py_get data "remind_at" PNone) in
  logger INFO (Fmt "NOTIFICATION: Reminder triggered for user={user_id}, task={task_id}, title='{title}', due_at={due_at}, remind_at={remind_at}, reminder_id={reminder_id}"
                 [user_id; task_id; title; due_at; remind_at; reminder_id]) ;;
  let* u' := lift (PyUUID.UUID event_id) in
  session_add (RowProcessed (new_processed env u' SERVICE_NAME)) ;;
  session_commit ;;
  ret SUCCESS
  end.

End Notification.

(** ** The backend: event publisher and reminder routes *)

Module Backend.
  Import PyDatetime.

Record Task : Type := mkTask {
  t_id : N;
  t_user_id : string;
  t_title : string;
  t_description : option string;
  t_completed : bool;
  t_priority : option string;
  t_tags : list string;
  t_due_at : option datetime;
  t_is_recurring : bool;
  t_recurrence_rule : option string
}.

Record Reminder : Type := mkReminder {
  r_id : N;
  r_task_id : N;
  r_user_id : string;
  r_remind_at : datetime;
  r_created_at : datetime
}.

Inductive HttpCall : Type :=
| POST (url : string) (json : pyval)
| DELETE (url : string).

(** The store ([tasks] and [reminders], keyed by primary key), the log
    and the HTTP calls made so far. *)
Record World : Type := mkWorld {
  tasks : gmap N Task;
  reminders : gmap N Reminder;
  log : list LogRecord;
  calls : list HttpCall
}.

(** What the backend reads from outside.  [model_dump name kwargs] stands
    for building the pydantic model [name] from keyword arguments and
    dumping it in JSON mode: the dumped value, or the exception that
    validation raised.  [column_time t] is the local time under which the
    database keeps an aware value [t] in a [DateTime] column without time
    zone. *)
Record Env : Type := mkEnv {
  clock : datetime;
  uuid4 : N;
  http : HttpCall -> http_outcome;
  model_dump : string -> list (string * pyval) -> outcome pyval;
  dapr_sidecar_url : string;
  column_time : datetime -> datetime
}.

Definition DAPR_API_VERSION : string := "v1.0".

Definition now (env : Env) : datetime := replace_tzinfo (clock env) (Some 0).

Definition logger (l : level) (m : fmt) : Py World unit :=
  fun w => (Return tt, mkWorld (tasks w) (reminders w) (log w ++ [mkLog l m]) (calls w)).

(** [await self.http_client.post(...)], [... .delete(...)] *)
Definition request (env : Env) (c : HttpCall) : Py World (Z * string) :=
  fun w =>
    let w' := mkWorld (tasks w) (reminders w) (log w) (calls w ++ [c]) in
    match http env c with
    | Response s t => (Return (s, t), w')
    | Failed e => (Raise e, w')
    end.

(** An object passed as [Any]: reading an attribute may raise. *)
Definition obj : Type := string -> outcome pyval.

Definition opt_str (o : option string) : pyval :=
  match o with Some s => PStr s | None => PNone end.

Definition opt_datetime (o : option datetime) : pyval :=
  match o with Some t => PDatetime t | None => PNone end.

(** The attributes of a [Task] row. *)
Definition Task_obj (t : Task) : obj :=
  fun name =>
    if String.eqb name "id" then Return (PUUID (t_id t))
    else if String.eqb name "user_id" then Return (PStr (t_user_id t))
    else if String.eqb name "title" then Return (PStr (t_title t))
    else if String.eqb name "description" then Return (opt_str (t_description t))
    else if String.eqb name "completed" then Return (PBool (t_completed t))
    else if String.eqb name "priority" then Return (opt_str (t_priority t))
    else if String.eqb name "tags" then Return (PList (map PStr (t_tags t)))
    else if String.eqb name "due_at" then Return (opt_datetime (t_due_at t))
    else if String.eqb name "is_recurring" then Return (PBool (t_is_recurring t))
    else if String.eqb name "recurrence_rule" then Return (opt_str (t_recurrence_rule t))
    else Raise AttributeError.

(** *** [EventPublisher] *)

(** The [CloudEvent] envelope, dumped. *)
Definition cloud_event (env : Env) (type : string) (data : pyval)
  : outcome pyval :=
  model_dump env "CloudEvent"
    [("id", PStr (PyUUID.str (uuid4 env))); ("type", PStr type);
     ("data", data); ("time", PDatetime (now env))].

Definition publish_url (env : Env) (topic_name : string) : string :=
  dapr_sidecar_url env +:+ "/" +:+ DAPR_API_VERSION +:+ "/publish/pubsub/" +:+ topic_name.

Definition publish_task_event (env : Env)
  (event_type : string) (task : obj) (user_id : string) : Py World bool :=
  try_except
    (let* title := lift (task "title") in
     let* description := lift (task "description") in
     let* completed := lift (task "completed") in
     let* priority := lift (task "priority") in
     let* tags := lift (task "tags") in
     let* due_at := lift (task "due_at") in
     let* is_recurring := lift (task "is_recurring") in
     let* recurrence_rule := lift (task "recurrence_rule") in
     let task_data :=
       PDict [("title", title); ("description", description);
              ("completed", completed); ("priority", priority);
              ("tags", tags); ("due_at", due_at);
              ("is_recurring", is_recurring);
              ("recurrence_rule", recurrence_rule)] in
     let* task_id := lift (task "id") in
     let* payload :=
       lift (model_dump env "TaskEventPayload"
               [("event_type", PStr event_type); ("task_id", task_id);
                ("user_id", PStr user_id); ("task_data", task_data);
                ("timestamp", PDatetime (now env))]) in
     let* event := lift (cloud_event env ("com.todo.task." +:+ event_type) payload) in
     let topic_name := "task-events" in
     let* response := request env (POST (publish_url env topic_name) event) in
     if fst response =? 200 then
       logger INFO (Fmt "Task event '{event_type}' published successfully to {topic_name}"
                      [PStr event_type; PStr topic_name]) ;;
       ret true
     else
       logger ERROR (Fmt "Failed to publish task event: {status_code} - {text}"
                       [PInt (fst response); PStr (snd response)]) ;;
       ret false)
    Exception
    (fun e =>
       logger ERROR (Fmt "Error publishing task event: {e}" []) ;;
       ret false).

Definition publish_task_update_event (env : Env)
  (change_type : string) (task_id : pyval) (user_id : string) : Py World bool :=
  try_except
    (let* payload :=
       lift (model_dump env "TaskUpdateEventPayload"
               [("task_id", task_id); ("user_id", PStr user_id);
                ("change_type", PStr change_type);
                ("timestamp", PDatetime (now env))]) in
     let* event := lift (cloud_event env ("com.todo.task.update." +:+ change_type) payload) in
     let topic_name := "task-updates" in
     let* response := request env (POST (publish_url env topic_name) event) in
     if fst response =? 200 then
       logger INFO (Fmt "Task update event '{change_type}' published successfully to {topic_name}"
                      [PStr change_type; PStr topic_name]) ;;
       ret true
     else
       logger ERROR (Fmt "Failed to publish task update event: {status_code} - {text}"
                       [PInt (fst response); PStr (snd response)]) ;;
       ret false)
    Exception
    (fun e =>
       logger ERROR (Fmt "Error publishing task update event: {e}" []) ;;
       ret false).

Definition publish_reminder_event (env : Env)
  (reminder_id : N) (task : obj) (user_id : string) (remind_at : datetime)
  : Py World bool :=
  try_except
    (let* task_id := lift (task "id") in
     let* title := lift (task "title") in
     let* due_at := lift (task "due_at") in
     let* payload :=
       lift (model_dump env "ReminderEventPayload"
               [("reminder_id", PUUID reminder_id); ("task_id", task_id);
                ("title", title); ("user_id", PStr user_id);
                ("due_at", due_at); ("remind_at", PDatetime remind_at);
                ("timestamp", PDatetime (now env))]) in
     let* event := lift (cloud_event env "com.todo.reminder.trigger" payload) in
     let topic_name := "reminders" in
     let* response := request env (POST (publish_url env topic_name) event) in
     if fst response =? 200 then
       logger INFO (Fmt "Reminder event published successfully to {topic_name}"
                      [PStr topic_name]) ;;
       ret true
     else
       logger ERROR (Fmt "Failed to publish reminder event: {status_code} - {text}"
                       [PInt (fst response); PStr (snd response)]) ;;
       ret false)
    Exception
    (fun e =>
       logger ERROR (Fmt "Error publishing reminder event: {e}" []) ;;
       ret false).

Definition job_url (env : Env) (job_name : string) : string :=
  dapr_sidecar_url env +:+ "/" +:+ DAPR_API_VERSION +:+ "-alpha1/jobs/" +:+ job_name.

Definition schedule_reminder_job (env : Env)
  (job_name : string) (schedule_time : datetime) (data : pyval) : Py World bool :=
  try_except
    (let job_payload :=
       PDict [("name", PStr job_name);
              ("schedule", PStr (isoformat schedule_time));
              ("data", data); ("retries", PInt 3); ("retryDelay", PInt 10)] in
     let* response := request env (POST (job_url env job_name) job_payload) in
     if (fst response =? 200) || (fst response =? 201) then
       logger INFO (Fmt "Dapr job '{job_name}' scheduled successfully" [PStr job_name]) ;;
       ret true
     else
       logger ERROR (Fmt "Failed to schedule Dapr job: {status_code} - {text}"
                       [PInt (fst response); PStr (snd response)]) ;;
       ret false)
    Exception
    (fun e =>
       logger ERROR (Fmt "Error scheduling Dapr job: {e}" []) ;;
       ret false).

Definition cancel_reminder_job (env : Env) (job_name : string) : Py World bool :=
  try_except
    (let* response := request env (DELETE (job_url env job_name)) in
     if fst response =? 204 then
       logger INFO (Fmt "Dapr job '{job_name}' canceled successfully" [PStr job_name]) ;;
       ret true
     else if fst response =? 404 then
       logger INFO (Fmt "Dapr job '{job_name}' not found (already canceled?)" [PStr job_name]) ;;
       ret true
     else
       logger ERROR (Fmt "Failed to cancel Dapr job: {status_code} - {text}"
                       [PInt (fst response); PStr (snd response)]) ;;
       ret false)
    Exception
    (fun e =>
       logger ERROR (Fmt "Error canceling Dapr job: {e}" []) ;;
       ret false).

(** *** [middleware/auth.py] *)

Definition verify_user_access (token_user_id url_user_id : string) : Py World unit :=
  if negb (String.eqb token_user_id url_user_id)
  then raise (HTTPException 403 (Fmt "Forbidden" []))
  else ret tt.

(** *** Queries *)

(** [select(Task).where(Task.id == task_id, Task.user_id == user_id)]
    [.first()] *)
Definition select_task (task_id : N) (user_id : string) : Py World (option Task) :=
  fun w =>
    (Return (match tasks w !! task_id with
             | Some t => if String.eqb (t_user_id t) user_id then Some t else None
             | None => None
             end), w).

(** [session.get(Reminder, reminder_id)] *)
Definition get_reminder (reminder_id : N) : Py World (option Reminder) :=
  fun w => (Return (reminders w !! reminder_id), w).

(** [select(Reminder).where(Reminder.id == .., Reminder.task_id == ..,]
    [Reminder.user_id == ..).first()] *)
Definition select_reminder (reminder_id task_id : N) (user_id : string)
  : Py World (option Reminder) :=
  fun w =>
    (Return (match reminders w !! reminder_id with
             | Some r =>
                 if (N.eqb (r_task_id r) task_id) && String.eqb (r_user_id r) user_id
                 then Some r else None
             | None => None
             end), w).

(** What a [DateTime] column without time zone gives back for a value
    written to it: a naive value as it is, an aware one without its
    offset. *)
Definition reloaded (env : Env) (t : datetime) : datetime :=
  match tzinfo t with
  | None => t
  | Some _ => replace_tzinfo (column_time env t) None
  end.

(** [session.add(reminder); session.commit(); session.refresh(reminder)]:
    the row is written and the object reloaded from it. *)
Definition insert_reminder (env : Env) (r : Reminder) : Py World Reminder :=
  fun w =>
    match reminders w !! r_id r with
    | Some _ => (Raise IntegrityError, w)
    | None =>
        let row :=
          mkReminder (r_id r) (r_task_id r) (r_user_id r)
            (reloaded env (r_remind_at r)) (reloaded env (r_created_at r)) in
        (Return row,
         mkWorld (tasks w) (<[r_id r := row]> (reminders w)) (log w) (calls w))
    end.

(** [session.delete(reminder); session.commit()] *)
Definition delete_reminder_row (r : Reminder) : Py World unit :=
  fun w => (Return tt, mkWorld (tasks w) (delete (r_id r) (reminders w)) (log w) (calls w)).

(** *** [routers/reminders.py] *)

Definition create_reminder (env : Env)
  (user_id : string) (task_id : N) (remind_at_in : datetime)
  (current_user_id : string) : Py World Reminder :=
  verify_user_access current_user_id user_id ;;
  let now := now env in
  let remind_at :=
    match tzinfo remind_at_in with
    | None => replace_tzinfo remind_at_in (Some 0)
    | Some _ => remind_at_in
    end in
  let* past := lift (le remind_at now) in
  if past then
    raise (HTTPException 400 (Fmt "remind_at must be in the future" []))
  else
  let* task := select_task task_id current_user_id in
  match task with
  | None => raise (HTTPException 404 (Fmt "Task not found" []))
  | Some _ =>
      let* reminder :=
        insert_reminder env
          (mkReminder (uuid4 env) task_id current_user_id remind_at_in now) in
      let job_name := "reminder-" +:+ PyUUID.str (r_id reminder) in
      let job_data :=
        PDict [("reminder_id", PStr (PyUUID.str (r_id reminder)));
               ("task_id", PStr (PyUUID.str task_id));
               ("user_id", PStr current_user_id)] in
      let* success := schedule_reminder_job env job_name remind_at_in job_data in
      (if negb success then
         logger WARNING (Fmt "Failed to schedule Dapr job for reminder {reminder.id}"
                           [PUUID (r_id reminder)])
       else ret tt) ;;
      ret reminder
  end.

Definition delete_reminder (env : Env)
  (user_id : string) (task_id reminder_id : N) (current_user_id : string)
  : Py World pyval :=
  verify_user_access current_user_id user_id ;;
  let* reminder := select_reminder reminder_id task_id current_user_id in
  match reminder with
  | None => raise (HTTPException 404 (Fmt "Reminder not found" []))
  | Some reminder =>
      let job_name := "reminder-" +:+ PyUUID.str (r_id reminder) in
      cancel_reminder_job env job_name ;;
      delete_reminder_row reminder ;;
      ret (PDict [("message", PStr "Reminder deleted successfully")])
  end.

(** *** [routers/internal.py] *)

Record ReminderTriggerRequest : Type := mkReminderTriggerRequest {
  reminder_id : N;
  task_id : N;
  user_id : string
}.

Definition trigger_reminder (env : Env) (request : ReminderTriggerRequest)
  : Py World pyval :=
  logger INFO (Fmt "Reminder trigger: reminder_id={reminder_id}, task_id={task_id}"
                 [PUUID (reminder_id request); PUUID (task_id request)]) ;;
  let* reminder := get_reminder (reminder_id request) in
  match reminder with
  | None =>
      logger WARNING (Fmt "Reminder not found: {reminder_id}" [PUUID (reminder_id request)]) ;;
      raise (HTTPException 404 (Fmt "Reminder {reminder_id} not found" [PUUID (reminder_id request)]))
  | Some reminder =>
      let* task := select_task (task_id request) (user_id request) in
      match task with
      | None =>
          logger WARNING (Fmt "Task not found: task_id={task_id}, user_id={user_id}"
                            [PUUID (task_id request); PStr (user_id request)]) ;;
          raise (HTTPException 404 (Fmt "Task {task_id} not found" [PUUID (task_id request)]))
      | Some task =>
          let* success :=
            publish_reminder_event env (reminder_id request) (Task_obj task)
              (user_id request) (r_remind_at reminder) in
          if negb success then
            logger ERROR (Fmt "Failed to publish ReminderEvent for reminder {reminder_id}"
                            [PUUID (reminder_id request)]) ;;
            raise (HTTPException 500 (Fmt "Failed to publish reminder event" []))
          else ret (PDict [("status", PStr "ok")])
      end
  end.

(** *** [routers/tasks.py] *)


End Backend.

(** ** Checking a predicate on a range of integers *)

(** [all_below k start p]: [p] holds on the [k] integers from [start] on. *)
Fixpoint all_below (k : positive) (start : Z) (p : Z -> bool) : bool :=
  match k with
  | xH => p start
  | xO k' => all_below k' start p && all_below k' (start + Zpos k') p
  | xI k' =>
      all_below k' start p && all_below k' (start + Zpos k') p
      && p (start + Zpos k' + Zpos k')
  end.

(** One full cycle of the Gregorian calendar, by ordinal: the date of
    every ordinal is a valid date of the years 1..400 and has that
    ordinal. *)
Definition cycle_ordinal_ok (r : Z) : bool :=
  let '(y, m, d) := PyDatetime.ord2ymd (r + 1) in
  (1 <=? y) && (y <=? 400) && (1 <=? m) && (m <=? 12)
  && (1 <=? d) && (d <=? PyDatetime.days_in_month y m)
  && (PyDatetime.ymd2ord y m d =? r + 1)
  && implb (r <=? 145730) (y <=? 399).

(** The same cycle, by date: the ordinal of every valid date lies in the
    cycle (before its last year, for a date before that year) and is sent
    back to the date. *)
Definition cycle_date_ok (y m d : Z) : bool :=
  implb (d <=? PyDatetime.days_in_month y m)
    (let n := PyDatetime.ymd2ord y m d in
     (1 <=? n) && (n <=? 146097) && implb (y <=? 399) (n <=? 145731)
     && match PyDatetime.ord2ymd n with
        | (y', m', d') => (y' =? y) && (m' =? m) && (d' =? d)
        end).

(** ** Vocabulary of the statements *)

Module ConsumerSpec.
  Import Consumer.

(** The world after a handler that only logged [r]. *)
Definition logged (w : World) (r : LogRecord) : World :=
  mkWorld (session w) (log w ++ [r]) (sent w).

Definition skip_record (id : pyval) : LogRecord :=
  mkLog INFO (Fmt "Event {event_id} already processed, skipping" [id]).

Definition no_id_record : LogRecord :=
  mkLog WARNING (Fmt "Received event without id, skipping" []).

Definition empty_world : World := mkWorld (mkSession ∅ [] []) [] [].

(** Code that leaves the session and the outbound calls as they were;
    it may log. *)
Definition keeps {A : Type} (m : Py World A) : Prop :=
  forall w r w', m w = (r, w') -> session w' = session w /\ sent w' = sent w.

(** Code that makes no outbound call. *)
Definition quiet {A : Type} (m : Py World A) : Prop :=
  forall w r w', m w = (r, w') -> sent w' = sent w.

(** The peer did not answer 200 or 201: another status, or the client
    raised. *)
Definition creation_failed (o : http_outcome) : Prop :=
  match o with
  | Response c _ => c <> 200 /\ c <> 201
  | Failed _ => True
  end.

(** What the handler owes when the one call it makes fails. *)
Definition retry_ok (env : Env) (m : Py World Status) : Prop :=
  forall w res w', m w = (res, w') ->
    sent w' = sent w
    \/ exists req, sent w' = (sent w ++ [req])%list
         /\ (creation_failed (http_post env req) ->
             res = Return RETRY /\ session w' = session w).

(** A completed recurring task due on 31 January, as published. *)
Definition completed_weekly : pyval :=
  PDict [("id", PStr "12345678-1234-5678-1234-567812345678");
         ("data",
          PDict [("event_type", PStr "completed");
                 ("task_id", PStr "0a0b0c0d-0000-0000-0000-000000000001");
                 ("user_id", PStr "alice");
                 ("task_data",
                  PDict [("title", PStr "Water plants");
                         ("is_recurring", PBool true);
                         ("recurrence_rule", PStr "weekly");
                         ("due_at", PStr "2026-01-31T00:00:00Z")])])].

Definition sample_env (answer : http_outcome) : Env :=
  mkEnv (mkDatetime 2026 2 1 8 30 0 0 None) 77 (fun _ => answer) 3500
    "todo-backend".

End ConsumerSpec.

Module DatetimeSpec.
  Import PyDatetime.

Definition same_clock (a b : datetime) : Prop :=
  hour a = hour b /\ minute a = minute b /\ second a = second b
  /\ microsecond a = microsecond b /\ tzinfo a = tzinfo b.

(** The year and month one calendar month later. *)
Definition month_after (y m : Z) : Z * Z :=
  if m =? 12 then (y + 1, 1) else (y, m + 1).

(** The instant of [t], reading a naive value as UTC. *)
Definition utc_instant (t : datetime) : Z :=
  instant t (match tzinfo t with Some off => off | None => 0 end).

End DatetimeSpec.

Module BackendSpec.
  Import Backend.

(** The call made between [w] and [w'] was answered 200 by the broker. *)
Definition broker_accepted (env : Env) (w w' : World) : Prop :=
  exists req text,
    calls w' = (calls w ++ [req])%list /\ http env req = Response 200 text.

(** Every attribute of the object can be read. *)
Definition readable (task : obj) : Prop :=
  forall name, exists v, task name = Return v.

(** Every pydantic model validates and dumps. *)
Definition dumps (env : Env) : Prop :=
  forall name kwargs, exists j, model_dump env name kwargs = Return j.

(** What a publish operation that returned [b] left behind: the store
    untouched, one more log record (INFO for [True], ERROR for [False]),
    and either no call and [False], or one POST to [topic] with [True]
    exactly when the broker answered it with 200. *)
Definition publish_report (env : Env) (topic : string) (w w' : World)
  (b : bool) : Prop :=
  tasks w' = tasks w /\ reminders w' = reminders w
  /\ (exists l, log w' = (log w ++ [l])%list
                /\ lvl l = if b then INFO else ERROR)
  /\ ((calls w' = calls w /\ b = false)
      \/ exists event,
           calls w' = (calls w ++ [POST (publish_url env topic) event])%list
           /\ (b = true <->
               exists text,
                 http env (POST (publish_url env topic) event)
                 = Response 200 text)).

(** [session.get(Reminder, id)] narrowed to the rows of [uid]. *)
Definition reminder_of_user (w : World) (id : N) (uid : string)
  : option Reminder :=
  match reminders w !! id with
  | Some r => if String.eqb (r_user_id r) uid then Some r else None
  | None => None
  end.

(** The task [id] if it belongs to [uid]. *)
Definition task_of_user (w : World) (id : N) (uid : string) : option Task :=
  match tasks w !! id with
  | Some t => if String.eqb (t_user_id t) uid then Some t else None
  | None => None
  end.

Definition trigger_log (rq : ReminderTriggerRequest) : LogRecord :=
  mkLog INFO (Fmt "Reminder trigger: reminder_id={reminder_id}, task_id={task_id}"
                [PUUID (reminder_id rq); PUUID (task_id rq)]).

(** The world once [trigger_reminder] has logged its entry. *)
Definition entered (w : World) (rq : ReminderTriggerRequest) : World :=
  mkWorld (tasks w) (reminders w) (log w ++ [trigger_log rq]) (calls w).



(** A task of alice's, a reminder of bob's, and a store holding both. *)
Definition sample_task : Task :=
  mkTask 1 "alice" "Pay rent" None false None [] None false None.

Definition sample_clock : datetime := mkDatetime 2026 1 1 0 0 0 0 None.

Definition foreign_reminder : Reminder :=
  mkReminder 2 9 "bob" (mkDatetime 2026 1 1 9 0 0 0 (Some 0)) sample_clock.

Definition sample_env (answer : http_outcome) : Env :=
  mkEnv sample_clock 7 (fun _ => answer) (fun _ kwargs => Return (PDict kwargs))
    "http://localhost:3500" (fun t => t).

Definition sample_world : World :=
  mkWorld {[ 1%N := sample_task ]} {[ 2%N := foreign_reminder ]} [] [].

End BackendSpec.

Module ConsumerMoreSpec.
Import Consumer ConsumerSpec PyDatetime.

(** The session after one more ledger row. *)
Definition recorded (env : Env) (u : N) (name : string) (s : Session) : Session :=
  mkSession (<[u := new_processed env u name]> (processed s)) (audit s) [].

(** Either nothing was written, or one audit entry and the ledger row of
    one new id were written together. *)
Definition wrote_nothing_or_both (s s' : Session) : Prop :=
  s' = s
  \/ exists e u p,
       processed s !! u = None
       /\ s' = mkSession (<[u := p]> (processed s)) (audit s ++ [e]) [].

(** The id of the envelope parses to [u] and [u] is in the ledger of [s]. *)
Definition recorded_in (event_data : pyval) (s : Session) : Prop :=
  exists id u row,
    py_get event_data "id" PNone = Return id
    /\ PyUUID.UUID id = Return u
    /\ processed s !! u = Some row.

(** The line the notification service logs for a reminder. *)
Definition notification_record (data : list (string * pyval)) : LogRecord :=
  let field k := match dict_lookup data k with Some v => v | None => PNone end in
  mkLog INFO
    (Fmt "NOTIFICATION: Reminder triggered for user={user_id}, task={task_id}, title='{title}', due_at={due_at}, remind_at={remind_at}, reminder_id={reminder_id}"
       [field "user_id"; field "task_id"; field "title"; field "due_at";
        field "remind_at"; field "reminder_id"]).


(** The warning logged for a rule that is none of the three. *)
Definition unknown_rule_record (rule : pyval) : LogRecord :=
  mkLog WARNING
    (Fmt "Unknown recurrence_rule '{recurrence_rule}', defaulting to daily" [rule]).


(** A task event as the backend publishes it. *)
Definition created_event : pyval :=
  PDict [("id", PStr "12345678-1234-5678-1234-567812345678");
         ("data",
          PDict [("event_type", PStr "created");
                 ("task_id", PStr "0a0b0c0d-0000-0000-0000-000000000001");
                 ("user_id", PStr "alice");
                 ("timestamp", PStr "2026-02-01T08:00:00Z")])].

(** A reminder event as the backend publishes it. *)
Definition reminder_event : pyval :=
  PDict [("id", PStr "12345678-1234-5678-1234-567812345678");
         ("data",
          PDict [("reminder_id", PStr "0a0b0c0d-0000-0000-0000-000000000002");
                 ("task_id", PStr "0a0b0c0d-0000-0000-0000-000000000001");
                 ("title", PStr "Water plants");
                 ("user_id", PStr "alice")])].

(** The integer of the UUID 12345678-1234-5678-1234-567812345678. *)
Definition sample_id : N := 24197857161011715162171839636988778104.

End ConsumerMoreSpec.

Module BackendMoreSpec.
Import Backend BackendSpec PyDatetime.

(** The job the backend registers for a reminder. *)
Definition job_name_of (id : N) : string := "reminder-" +:+ PyUUID.str id.

(** The scheduler answered 200 or 201. *)
Definition scheduler_accepted (o : http_outcome) : Prop :=
  exists c text, o = Response c text /\ (c = 200 \/ c = 201).

(** The data a reminder's job carries back to the trigger endpoint. *)
Definition job_data_of (r : Reminder) : pyval :=
  PDict [("reminder_id", PStr (PyUUID.str (r_id r)));
         ("task_id", PStr (PyUUID.str (r_task_id r)));
         ("user_id", PStr (r_user_id r))].

(** What [delete_reminder] answers. *)
Definition deleted_message : pyval :=
  PDict [("message", PStr "Reminder deleted successfully")].

(** The store is as it was and at most one event was posted to [topic];
    [b] tells whether the broker answered 200. *)
Definition published_to (env : Env) (topic : string) (w w' : World) (b : bool)
  : Prop :=
  tasks w' = tasks w /\ reminders w' = reminders w
  /\ ((calls w' = calls w /\ b = false)
      \/ exists event,
           calls w' = (calls w ++ [POST (publish_url env topic) event])%list
           /\ (b = true <->
               exists text,
                 http env (POST (publish_url env topic) event) = Response 200 text)).

(** What [trigger_reminder] answers after a publish. *)
Definition ok_message : pyval := PDict [("status", PStr "ok")].

(** A reminder of alice's for her task, and a store holding it. *)
Definition own_reminder : Reminder :=
  mkReminder 5 1 "alice" (mkDatetime 2026 3 1 9 0 0 0 None) sample_clock.

Definition world_with_reminder : World :=
  mkWorld {[ 1%N := sample_task ]} {[ 5%N := own_reminder ]} [] [].

(** A time after the sample clock, without a zone. *)
Definition march_first : datetime := mkDatetime 2026 3 1 9 0 0 0 None.

End BackendMoreSpec.

(** * Theorems *)

Lemma all_below_spec (k : positive) :
  forall start p, all_below k start p = true ->
  forall z, start <= z < start + Zpos k -> p z = true.
Proof.
  induction k as [k IH | k IH |]; simpl; intros start p H z Hz.
  - apply andb_prop in H as [H H3]. apply andb_prop in H as [H1 H2].
    destruct (Z_lt_ge_dec z (start + Zpos k)) as [Hlt | Hge].
    + apply (IH _ _ H1). lia.
    + destruct (Z_lt_ge_dec z (start + Zpos k + Zpos k)) as [Hlt2 | Hge2].
      * apply (IH _ _ H2). lia.
      * replace z with (start + Zpos k + Zpos k) by lia. exact H3.
  - apply andb_prop in H as [H1 H2].
    destruct (Z_lt_ge_dec z (start + Zpos k)) as [Hlt | Hge].
    + apply (IH _ _ H1). lia.
    + apply (IH _ _ H2). lia.
  - replace z with start by lia. exact H.
Qed.

Lemma not_self_app {A : Type} (l : list A) (x : A) : l <> (l ++ [x])%list.
Proof.
  intros H. apply (f_equal (@length A)) in H.
  rewrite length_app in H. simpl in H. lia.
Qed.

(** ** The calendar *)

Module CalendarFacts.
  Import PyDatetime DatetimeSpec.

Lemma cycle_by_ordinal : all_below 146097 0 cycle_ordinal_ok = true.
Proof. vm_cast_no_check (eq_refl true). Qed.

Lemma cycle_by_date :
  all_below 400 1 (fun y => all_below 12 1 (fun m =>
    all_below 31 1 (fun d => cycle_date_ok y m d))) = true.
Proof. vm_cast_no_check (eq_refl true). Qed.

Lemma is_leap_shift y q : is_leap (y + 400 * q) = is_leap y.
Proof.
  unfold is_leap.
  replace ((y + 400 * q) mod 4) with (y mod 4)
    by (replace (y + 400 * q) with (y + (100 * q) * 4) by lia;
        now rewrite Z_mod_plus_full).
  replace ((y + 400 * q) mod 100) with (y mod 100)
    by (replace (y + 400 * q) with (y + (4 * q) * 100) by lia;
        now rewrite Z_mod_plus_full).
  replace ((y + 400 * q) mod 400) with (y mod 400)
    by (replace (y + 400 * q) with (y + q * 400) by lia;
        now rewrite Z_mod_plus_full).
  reflexivity.
Qed.

Lemma days_in_month_shift y q m :
  days_in_month (y + 400 * q) m = days_in_month y m.
Proof. unfold days_in_month. now rewrite is_leap_shift. Qed.

Lemma ymd2ord_shift y q m d :
  ymd2ord (y + 400 * q) m d = ymd2ord y m d + 146097 * q.
Proof.
  unfold ymd2ord, days_before_month, days_before_year.
  rewrite is_leap_shift.
  replace (y + 400 * q - 1) with (y - 1 + 400 * q) by lia.
  replace ((y - 1 + 400 * q) / 4) with ((y - 1) / 4 + 100 * q)
    by (replace (y - 1 + 400 * q) with (y - 1 + (100 * q) * 4) by lia;
        now rewrite Z_div_plus_full by lia).
  replace ((y - 1 + 400 * q) / 100) with ((y - 1) / 100 + 4 * q)
    by (replace (y - 1 + 400 * q) with (y - 1 + (4 * q) * 100) by lia;
        now rewrite Z_div_plus_full by lia).
  replace ((y - 1 + 400 * q) / 400) with ((y - 1) / 400 + q)
    by (replace (y - 1 + 400 * q) with (y - 1 + q * 400) by lia;
        now rewrite Z_div_plus_full by lia).
  lia.
Qed.

Lemma ord2ymd_shift q r :
  0 <= r < 146097 ->
  ord2ymd (146097 * q + r + 1) =
  let '(y, m, d) := ord2ymd (r + 1) in (y + 400 * q, m, d).
Proof.
  intros Hr. unfold ord2ymd.
  replace (146097 * q + r + 1 - 1) with (r + q * 146097) by lia.
  replace (r + 1 - 1) with r by lia.
  rewrite Z_div_plus_full, Z_mod_plus_full by lia.
  rewrite (Z.div_small r 146097), (Z.mod_small r 146097) by lia.
  cbv zeta.
  repeat match goal with
         | |- context [if ?c then _ else _] => destruct c
         end; f_equal; try f_equal; lia.
Qed.

Lemma cycle_ordinal r :
  0 <= r < 146097 -> cycle_ordinal_ok r = true.
Proof.
  intros Hr. apply (all_below_spec _ _ _ cycle_by_ordinal). lia.
Qed.

Lemma cycle_date y m d :
  1 <= y <= 400 -> 1 <= m <= 12 -> 1 <= d <= 31 ->
  cycle_date_ok y m d = true.
Proof.
  intros Hy Hm Hd.
  pose proof (all_below_spec _ _ _ cycle_by_date y ltac:(lia)) as H1.
  pose proof (all_below_spec _ _ _ H1 m ltac:(lia)) as H2.
  exact (all_below_spec _ _ _ H2 d ltac:(lia)).
Qed.

Lemma days_in_month_le_31 y m : days_in_month y m <= 31.
Proof.
  unfold days_in_month, DAYS_IN_MONTH.
  destruct ((m =? 2) && is_leap y); [lia |].
  destruct m as [| p | p]; try lia.
  do 4 (try destruct p as [p | p |]); lia.
Qed.

(** Every ordinal in range is the ordinal of the valid date [ord2ymd]
    gives for it. *)
Lemma ymd2ord_ord2ymd n :
  1 <= n <= MAXORDINAL ->
  let '(y, m, d) := ord2ymd n in
  valid_date y m d = true /\ ymd2ord y m d = n.
Proof.
  unfold MAXORDINAL. intros Hn.
  pose (q := (n - 1) / 146097). pose (r := (n - 1) mod 146097).
  assert (Hq : n = 146097 * q + r + 1)
    by (unfold q, r; pose proof (Z.div_mod (n - 1) 146097); lia).
  assert (Hr : 0 <= r < 146097) by (unfold r; apply Z.mod_pos_bound; lia).
  assert (Hq0 : 0 <= q <= 24)
    by (unfold q; split;
        [apply Z.div_pos; lia
        | apply Z.lt_succ_r; apply Z.div_lt_upper_bound; lia]).
  clearbody q r. subst n. rewrite ord2ymd_shift by exact Hr.
  pose proof (cycle_ordinal r Hr) as Hc. unfold cycle_ordinal_ok in Hc.
  destruct (ord2ymd (r + 1)) as [[y m] d].
  repeat (apply andb_prop in Hc as [Hc ?]).
  split.
  - unfold valid_date, MINYEAR, MAXYEAR. rewrite days_in_month_shift.
    assert (y + 400 * q <= 9999).
    { destruct (Z_le_gt_dec q 23); [lia |].
      assert (r <= 145730) by lia.
      destruct (r <=? 145730) eqn:E; [simpl in *; lia | lia]. }
    repeat (apply andb_true_intro; split); lia.
  - rewrite ymd2ord_shift. lia.
Qed.

(** Every valid date is the date of its ordinal. *)
Lemma ord2ymd_ymd2ord y m d :
  valid_date y m d = true -> ord2ymd (ymd2ord y m d) = (y, m, d).
Proof.
  unfold valid_date, MINYEAR. intros Hv.
  repeat (apply andb_prop in Hv as [Hv ?]).
  pose (q := (y - 1) / 400). pose (y0 := (y - 1) mod 400 + 1).
  assert (Hy : y = y0 + 400 * q)
    by (unfold q, y0; pose proof (Z.div_mod (y - 1) 400); lia).
  assert (Hy0 : 1 <= y0 <= 400)
    by (unfold y0; pose proof (Z.mod_pos_bound (y - 1) 400); lia).
  pose proof (days_in_month_le_31 y m).
  pose proof (cycle_date y0 m d Hy0 ltac:(lia) ltac:(lia)) as Hc.
  unfold cycle_date_ok in Hc.
  clearbody q y0. subst y. rewrite days_in_month_shift in *.
  replace (d <=? days_in_month y0 m) with true in Hc by (symmetry; lia).
  simpl in Hc.
  rewrite ymd2ord_shift.
  apply andb_prop in Hc as [Hc Hback]. apply andb_prop in Hc as [Hc Hlast].
  apply andb_prop in Hc as [Hlo Hhi].
  replace (ymd2ord y0 m d + 146097 * q)
    with (146097 * q + (ymd2ord y0 m d - 1) + 1) by lia.
  rewrite ord2ymd_shift by lia.
  replace (ymd2ord y0 m d - 1 + 1) with (ymd2ord y0 m d) by lia.
  destruct (ord2ymd (ymd2ord y0 m d)) as [[y' m'] d'].
  repeat (apply andb_prop in Hback as [Hback ?]).
  f_equal; [f_equal |]; lia.
Qed.

(** The ordinal of a valid date is in range. *)
Lemma ymd2ord_range y m d :
  valid_date y m d = true -> 1 <= ymd2ord y m d <= MAXORDINAL.
Proof.
  unfold valid_date, MINYEAR, MAXYEAR, MAXORDINAL. intros Hv.
  repeat (apply andb_prop in Hv as [Hv ?]).
  pose (q := (y - 1) / 400). pose (y0 := (y - 1) mod 400 + 1).
  assert (Hy : y = y0 + 400 * q)
    by (unfold q, y0; pose proof (Z.div_mod (y - 1) 400); lia).
  assert (Hy0 : 1 <= y0 <= 400)
    by (unfold y0; pose proof (Z.mod_pos_bound (y - 1) 400); lia).
  assert (Hq0 : 0 <= q <= 24)
    by (unfold q; split;
        [apply Z.div_pos; lia
        | apply Z.lt_succ_r; apply Z.div_lt_upper_bound; lia]).
  pose proof (days_in_month_le_31 y m).
  pose proof (cycle_date y0 m d Hy0 ltac:(lia) ltac:(lia)) as Hc.
  unfold cycle_date_ok in Hc.
  clearbody q y0. subst y. rewrite days_in_month_shift in *.
  replace (d <=? days_in_month y0 m) with true in Hc by (symmetry; lia).
  simpl in Hc. rewrite ymd2ord_shift.
  apply andb_prop in Hc as [Hc Hback]. apply andb_prop in Hc as [Hc Hlast].
  apply andb_prop in Hc as [Hlo Hhi].
  destruct (Z_le_gt_dec q 23); [lia |].
  assert (y0 <= 399) by lia.
  destruct (y0 <=? 399) eqn:E; [simpl in Hlast; lia | lia].
Qed.

Lemma fromisoformat_valid s t :
  fromisoformat s = Return t -> valid t = true.
Proof.
  unfold fromisoformat. intros H.
  repeat match type of H with
         | context [match ?x with _ => _ end] =>
             destruct x eqn:?; try discriminate
         end;
    inversion H; subst; unfold valid; simpl; assumption.
Qed.

Lemma fromisoformat_nonempty s t :
  fromisoformat (Text.replace "Z" "+00:00" s) = Return t -> truthy (PStr s) = true.
Proof. destruct s; [discriminate | reflexivity]. Qed.

Lemma valid_fields t :
  valid t = true ->
  valid_date (year t) (month t) (day t) = true.
Proof. unfold valid. intros H. apply andb_prop in H as [H _]. exact H. Qed.

Lemma days_in_month_ge_28 y m : 1 <= m <= 12 -> 28 <= days_in_month y m.
Proof.
  intros Hm. unfold days_in_month, DAYS_IN_MONTH.
  destruct ((m =? 2) && is_leap y); [lia |].
  destruct m as [| p | p]; try lia.
  do 4 (try destruct p as [p | p |]); lia.
Qed.

(** Adding [k] days to a valid value whose ordinal stays in range. *)
Lemma add_days_spec t k :
  valid t = true -> 1 <= toordinal t + k <= MAXORDINAL ->
  exists next, add_days t k = Return next
    /\ valid next = true /\ toordinal next = toordinal t + k
    /\ same_clock next t.
Proof.
  intros Hv Hk. unfold add_days.
  replace ((0 <? toordinal t + k) && (toordinal t + k <=? MAXORDINAL)) with true
    by (symmetry; lia).
  pose proof (ymd2ord_ord2ymd _ Hk) as Hr.
  destruct (ord2ymd (toordinal t + k)) as [[y m] d]. destruct Hr as [Hd Ho].
  eexists. split; [reflexivity |].
  unfold valid, toordinal, same_clock in *. simpl.
  apply andb_prop in Hv as [_ Hv]. rewrite Hd, Hv. auto 10.
Qed.

(** A shift by days only. *)
Lemma relativedelta_days t k :
  valid t = true -> 1 <= toordinal t + k <= MAXORDINAL ->
  exists next, relativedelta_add t (mkRelativedelta 0 k) = Return next
    /\ valid next = true /\ toordinal next = toordinal t + k
    /\ same_clock next t.
Proof.
  intros Hv Hk. unfold relativedelta_add. simpl.
  pose proof (valid_fields _ Hv) as Hd. pose proof Hd as Hd'.
  unfold valid_date in Hd'. repeat (apply andb_prop in Hd' as [Hd' ?]).
  rewrite Z.min_r by lia.
  unfold replace_ymd. rewrite Hd. simpl.
  destruct t; simpl in *. apply add_days_spec; assumption.
Qed.

(** A shift by one month. *)
Lemma relativedelta_month t :
  valid t = true ->
  let '(y, m) := month_after (year t) (month t) in
  y <= MAXYEAR ->
  relativedelta_add t (mkRelativedelta 1 0) =
  Return (mkDatetime y m (Z.min (days_in_month y m) (day t))
            (hour t) (minute t) (second t) (microsecond t) (tzinfo t)).
Proof.
  intros Hv. pose proof (valid_fields _ Hv) as Hd.
  unfold valid_date, MINYEAR, MAXYEAR in Hd.
  repeat (apply andb_prop in Hd as [Hd ?]).
  unfold month_after, relativedelta_add. simpl.
  assert (Hcase :
    (if month t + 1 >? 12 then (year t + 1, month t + 1 - 12)
     else if month t + 1 <? 1 then (year t - 1, month t + 1 + 12)
     else (year t, month t + 1))
    = (if month t =? 12 then (year t + 1, 1) else (year t, month t + 1))).
  { destruct (month t =? 12) eqn:E.
    - replace (month t + 1 >? 12) with true by (symmetry; lia).
      f_equal; lia.
    - replace (month t + 1 >? 12) with false by (symmetry; lia).
      replace (month t + 1 <? 1) with false by (symmetry; lia).
      reflexivity. }
  rewrite Hcase. clear Hcase.
  destruct (if month t =? 12 then (year t + 1, 1) else (year t, month t + 1))
    as [y m] eqn:Hym.
  intros Hy.
  assert (Hm : 1 <= m <= 12 /\ 1 <= y)
    by (destruct (month t =? 12) eqn:E; inversion Hym; subst; lia).
  pose proof (days_in_month_ge_28 y m (proj1 Hm)).
  set (d := Z.min (days_in_month y m) (day t)).
  assert (Hvd : valid_date y m d = true).
  { unfold valid_date, MINYEAR, MAXYEAR in *. unfold d.
    repeat (apply andb_true_intro; split); lia. }
  unfold replace_ymd. rewrite Hvd. simpl.
  unfold add_days, toordinal. simpl.
  pose proof (ymd2ord_range _ _ _ Hvd).
  replace ((0 <? ymd2ord y m d + 0) && (ymd2ord y m d + 0 <=? MAXORDINAL))
    with true by (symmetry; lia).
  rewrite Z.add_0_r, (ord2ymd_ymd2ord _ _ _ Hvd). reflexivity.
Qed.

End CalendarFacts.

(** ** The consumers *)

Module ConsumerFacts.
  Import Consumer ConsumerSpec.

Lemma UUID_truthy (v : pyval) (u : N) :
  PyUUID.UUID v = Return u -> truthy v = true.
Proof.
  destruct v as [| b | z | s | l | d | u' | t]; simpl; try discriminate.
  destruct s; [discriminate | reflexivity].
Qed.

(** C1: an envelope whose id is in the ledger is answered SUCCESS by each
    of the three handlers, and the only trace is the log line saying it was
    skipped: no audit entry, no ledger row, no outbound call, no
    notification line. *)
Theorem redelivery_is_suppressed (env : Env) (event_data id : pyval) (u : N)
    (prior : ProcessedEvent) (w : World) :
  py_get event_data "id" PNone = Return id ->
  PyUUID.UUID id = Return u ->
  processed (session w) !! u = Some prior ->
  Audit.handle_task_event env event_data w = (Return SUCCESS, logged w (skip_record id))
  /\ Recurring.handle_task_event env event_data w = (Return SUCCESS, logged w (skip_record id))
  /\ Notification.handle_reminder_event env event_data w = (Return SUCCESS, logged w (skip_record id)).
Proof.
  intros Hid Hu Hrow. pose proof (UUID_truthy _ _ Hu) as Ht.
  unfold Audit.handle_task_event, Recurring.handle_task_event,
    Notification.handle_reminder_event, bind, lift, session_get.
  rewrite Hid. cbn. rewrite Ht. cbn. rewrite Hu. cbn. rewrite Hrow. cbn. auto.
Qed.

Lemma redelivery_is_suppressed_witness :
  let env := sample_env (Response 500 "") in
  let id := PStr "12345678-1234-5678-1234-567812345678" in
  let u := 24197857161011715162171839636988778104%N in
  let prior := new_processed env u "audit-service" in
  let w := mkWorld (mkSession {[ u := prior ]} [] []) [] [] in
  processed (session w) !! u = Some prior
  /\ Audit.handle_task_event env completed_weekly w
     = (Return SUCCESS, logged w (skip_record id)).
Proof.
  cbv zeta. split; [vm_compute; reflexivity |].
  refine (proj1 (redelivery_is_suppressed _ completed_weekly _ _ _ _ _ _ _));
    vm_compute; reflexivity.
Defined.

(** C2: an envelope with no id field is answered DROP by each of the three
    handlers, and the only trace is the warning: nothing is written and
    nothing is sent. *)
Theorem missing_id_is_dropped (env : Env) (d : list (string * pyval)) (w : World) :
  dict_lookup d "id" = None ->
  Audit.handle_task_event env (PDict d) w = (Return DROP, logged w no_id_record)
  /\ Recurring.handle_task_event env (PDict d) w = (Return DROP, logged w no_id_record)
  /\ Notification.handle_reminder_event env (PDict d) w = (Return DROP, logged w no_id_record).
Proof.
  intros Hd.
  unfold Audit.handle_task_event, Recurring.handle_task_event,
    Notification.handle_reminder_event, bind, lift, py_get.
  rewrite Hd. simpl. auto.
Qed.

Lemma missing_id_is_dropped_witness :
  let d := [("data", PDict [("event_type", PStr "created")])] in
  dict_lookup d "id" = None
  /\ Notification.handle_reminder_event (sample_env (Response 200 "")) (PDict d)
       empty_world
     = (Return DROP, logged empty_world no_id_record).
Proof.
  cbv zeta. split; [reflexivity |].
  refine (proj2 (proj2 (missing_id_is_dropped _ _ _ _))). reflexivity.
Defined.

(** C9: what the handlers do with an id, or a task id, that is text but
    not a UUID: [UUID(...)] raises [ValueError] and nothing catches it, so
    the handler ends with that exception and no tri-state reply. *)
Theorem malformed_uuid_escapes (env : Env) (w : World) :
  let bad_id := PDict [("id", PStr "not-a-uuid")] in
  let bad_task :=
    PDict [("id", PStr "12345678-1234-5678-1234-567812345678");
           ("data", PDict [("event_type", PStr "created");
                           ("task_id", PStr "42");
                           ("user_id", PStr "alice")])] in
  Audit.handle_task_event env bad_id w = (Raise ValueError, w)
  /\ Recurring.handle_task_event env bad_id w = (Raise ValueError, w)
  /\ Notification.handle_reminder_event env bad_id w = (Raise ValueError, w)
  /\ Audit.handle_task_event env bad_task empty_world = (Raise ValueError, empty_world).
Proof.
  repeat split; reflexivity.
Qed.

Lemma keeps_lift {A : Type} (o : outcome A) : keeps (lift o).
Proof. intros w r w' H. inversion H. auto. Qed.

Lemma keeps_ret {A : Type} (a : A) : keeps (ret (W := World) a).
Proof. intros w r w' H. inversion H. auto. Qed.

Lemma keeps_logger l m : keeps (logger l m).
Proof. intros w r w' H. inversion H. auto. Qed.

Lemma keeps_session_get u : keeps (session_get u).
Proof. intros w r w' H. inversion H. auto. Qed.

Lemma keeps_bind {A B : Type} (m : Py World A) (k : A -> Py World B) :
  keeps m -> (forall a, keeps (k a)) -> keeps (bind m k).
Proof.
  intros Hm Hk w r w' H. unfold bind in H.
  destruct (m w) as [[a | e] w1] eqn:E; apply Hm in E as [Es Et].
  - apply Hk in H as [Hs Ht]. split; congruence.
  - inversion H; subst. auto.
Qed.

Lemma keeps_if {A : Type} (c : bool) (m1 m2 : Py World A) :
  keeps m1 -> keeps m2 -> keeps (if c then m1 else m2).
Proof. destruct c; auto. Qed.

Create HintDb keeps.
#[export] Hint Resolve keeps_lift keeps_ret keeps_logger keeps_session_get
  keeps_bind keeps_if : keeps.

Lemma compute_next_due_date_keeps env a b :
  keeps (Recurring.compute_next_due_date env a b).
Proof. unfold Recurring.compute_next_due_date. auto 12 with keeps. Qed.

Lemma compute_next_due_date_frame env a b w r w' :
  Recurring.compute_next_due_date env a b w = (r, w') ->
  session w' = session w /\ sent w' = sent w.
Proof. apply compute_next_due_date_keeps. Qed.

Lemma keeps_quiet {A : Type} (m : Py World A) : keeps m -> quiet m.
Proof. intros H w r w' E. apply (H _ _ _ E). Qed.

Lemma quiet_bind {A B : Type} (m : Py World A) (k : A -> Py World B) :
  quiet m -> (forall a, quiet (k a)) -> quiet (bind m k).
Proof.
  intros Hm Hk w r w' H. unfold bind in H.
  destruct (m w) as [[a | e] w1] eqn:E; apply Hm in E.
  - apply Hk in H. congruence.
  - inversion H; subst. auto.
Qed.

Lemma quiet_session_add r : quiet (session_add r).
Proof. intros w o w' H. inversion H. auto. Qed.

Lemma quiet_session_commit : quiet session_commit.
Proof.
  intros w o w' H. unfold session_commit in H.
  destruct (insert_rows _ _ _) as [[? ?] |]; inversion H; auto.
Qed.

Create HintDb quiet.
#[export] Hint Resolve quiet_bind quiet_session_add quiet_session_commit : quiet.
#[export] Hint Extern 1 (quiet _) => apply keeps_quiet; auto with keeps : quiet.

Lemma record_processed_quiet env id : quiet (Recurring.record_processed env id).
Proof. unfold Recurring.record_processed. auto 8 with quiet. Qed.

End ConsumerFacts.

(** ** The recurrence engine *)

Module RecurrenceFacts.
Import Consumer ConsumerSpec ConsumerFacts PyDatetime DatetimeSpec CalendarFacts.

Section Retry.
  Variable env : Env.

Lemma quiet_retry_ok m : quiet m -> retry_ok env m.
Proof. intros H w res w' E. left. exact (H _ _ _ E). Qed.

Lemma keeps_then {A : Type} (m : Py World A) (k : A -> Py World Status) :
  keeps m -> (forall a, retry_ok env (k a)) -> retry_ok env (bind m k).
Proof.
  intros Hm Hk w res w' H. unfold bind in H.
  destruct (m w) as [[a | e] w1] eqn:E; apply Hm in E as [Es Et].
  - apply Hk in H. rewrite Es, Et in H. exact H.
  - inversion H; subst. left. exact Et.
Qed.

Lemma create_call_retry_ok (req : Request) (ok_log err_log : fmt)
    (bad_log : Z * string -> fmt) id :
  retry_ok env
    (let* early :=
       try_except
         (let* response := post env req in
          if (fst response =? 200) || (fst response =? 201) then
            logger INFO ok_log ;; ret None
          else logger ERROR (bad_log response) ;; ret (Some RETRY))
         Exception
         (fun e => logger ERROR err_log ;; ret (Some RETRY)) in
     match early with
     | Some st => ret st
     | None => Recurring.record_processed env id ;; ret SUCCESS
     end).
Proof.
  intros w res w' H. right. exists req.
  unfold bind at 1, try_except, bind at 1, post in H.
  destruct (http_post env req) as [c t |] eqn:Hp; cbn in H.
  - destruct ((c =? 200) || (c =? 201)) eqn:Hc; cbn in H.
    + match type of H with
      | ?m ?w0 = _ =>
          assert (Hq : sent w' = sent w0)
            by (apply (quiet_bind _ _ (record_processed_quiet env id)
                         (fun _ => keeps_quiet _ (keeps_ret SUCCESS)) _ _ _ H))
      end.
      split; [exact Hq |]. cbn. intros [? ?]. lia.
    + inversion H; subst. cbn. auto.
  - inversion H; subst. cbn. auto.
Qed.

End Retry.

(** C8: when the task-creation call was made and did not succeed, the
    handler answers RETRY and the session, ledger included, is as it was. *)
Theorem failed_creation_is_retried (env : Env) (event_data : pyval)
    (w w' : World) (res : outcome Status) (req : Request) :
  Recurring.handle_task_event env event_data w = (res, w') ->
  sent w' = (sent w ++ [req])%list ->
  creation_failed (http_post env req) ->
  res = Return RETRY /\ session w' = session w.
Proof.
  intros H Hsent Hfail.
  assert (Hok : retry_ok env (Recurring.handle_task_event env event_data)).
  { unfold Recurring.handle_task_event.
    repeat first
      [ apply (create_call_retry_ok env _ _ _
                 (fun response => Fmt _ [PInt (fst response); PStr (snd response)]))
      | apply quiet_retry_ok;
        solve [ auto 8 using record_processed_quiet with quiet ]
      | apply keeps_then;
        [ solve [ auto using compute_next_due_date_keeps with keeps ]
        | intros ? ]
      | match goal with
        | |- retry_ok _ (if ?c then _ else _) => destruct c
        | |- retry_ok _ (match ?x with _ => _ end) => destruct x
        end ]. }
  destruct (Hok _ _ _ H) as [Hq | [req' [Hs Himp]]].
  - rewrite Hq in Hsent. exfalso. exact (not_self_app _ _ Hsent).
  - rewrite Hs in Hsent. apply app_inv_head in Hsent.
    injection Hsent as ->. exact (Himp Hfail).
Qed.

Lemma failed_creation_is_retried_witness :
  let env := sample_env (Response 503 "unavailable") in
  exists req w',
    sent w' = [req]
    /\ creation_failed (http_post env req)
    /\ (Recurring.handle_task_event env completed_weekly empty_world
        = (Return RETRY, w')
        /\ session w' = session empty_world).
Proof.
  cbv zeta.
  destruct (Recurring.handle_task_event (sample_env (Response 503 "unavailable"))
              completed_weekly empty_world) as [res w'] eqn:Hrun.
  pose proof Hrun as Hrun'. vm_compute in Hrun'.
  injection Hrun' as Hres Hw.
  eexists. exists w'.
  assert (Hsent : sent w' = (sent empty_world ++ [_])%list)
    by (rewrite <- Hw; reflexivity).
  assert (Hfail : creation_failed
                    (http_post (sample_env (Response 503 "unavailable"))
                       (mkRequest (Fmt "" []) PNone)))
    by (cbn; lia).
  destruct (failed_creation_is_retried _ _ _ _ _ _ Hrun Hsent Hfail) as [-> Hs].
  split; [exact Hsent |]. split; [exact Hfail |]. split; [reflexivity | exact Hs].
Defined.

(** C3: the offsets of [compute_next_due_date].  On the base
    2026-01-31T00:00:00Z the rule "monthly" gives 28 February 2026.  For a
    due date that parses to [base]: "daily" and "weekly" give the value one
    and seven days later (same time of day and offset), and "monthly" gives
    the same day of the next month, clamped to that month's length; each
    provided the result is a date [datetime] can hold. *)
Theorem next_due_date_offsets :
  (forall env w,
      Recurring.compute_next_due_date env
        (PStr "2026-01-31T00:00:00Z") (PStr "monthly") w
      = (Return "2026-02-28T00:00:00+00:00", w))
  /\ forall env w s base,
      fromisoformat (Text.replace "Z" "+00:00" s) = Return base ->
      (toordinal base + 1 <= MAXORDINAL ->
       exists next,
         Recurring.compute_next_due_date env (PStr s) (PStr "daily") w
         = (Return (isoformat next), w)
         /\ valid next = true /\ toordinal next = toordinal base + 1
         /\ same_clock next base)
      /\ (toordinal base + 7 <= MAXORDINAL ->
          exists next,
            Recurring.compute_next_due_date env (PStr s) (PStr "weekly") w
            = (Return (isoformat next), w)
            /\ valid next = true /\ toordinal next = toordinal base + 7
            /\ same_clock next base)
      /\ (let '(y, m) := month_after (year base) (month base) in
          y <= MAXYEAR ->
          Recurring.compute_next_due_date env (PStr s) (PStr "monthly") w
          = (Return (isoformat
                       (mkDatetime y m (Z.min (days_in_month y m) (day base))
                          (hour base) (minute base) (second base)
                          (microsecond base) (tzinfo base))), w)).
Proof.
  split; [intros env w; reflexivity |].
  intros env w s base Hparse.
  pose proof (fromisoformat_valid _ _ Hparse) as Hv.
  pose proof (fromisoformat_nonempty _ _ Hparse) as Hne.
  pose proof (ymd2ord_range _ _ _ (valid_fields _ Hv)) as Hord.
  fold (toordinal base) in Hord.
  unfold Recurring.compute_next_due_date, bind, lift, ret.
  rewrite Hne. unfold py_str_replace, obind, otry. rewrite Hparse. simpl.
  repeat split.
  - intros H1.
    destruct (relativedelta_days base 1 Hv ltac:(lia)) as [next [E Hn]].
    exists next. rewrite E. auto.
  - intros H7.
    destruct (relativedelta_days base 7 Hv ltac:(lia)) as [next [E Hn]].
    exists next. rewrite E. auto.
  - pose proof (relativedelta_month base Hv) as Hm.
    destruct (month_after (year base) (month base)) as [y m].
    intros Hy. rewrite (Hm Hy). reflexivity.
Qed.

Lemma next_due_date_offsets_witness :
  let env := sample_env (Response 200 "") in
  let base := mkDatetime 2024 12 31 23 59 0 0 (Some 0) in
  fromisoformat (Text.replace "Z" "+00:00" "2024-12-31T23:59Z") = Return base
  /\ (exists next,
        Recurring.compute_next_due_date env (PStr "2024-12-31T23:59Z")
          (PStr "daily") empty_world
        = (Return (isoformat next), empty_world)
        /\ valid next = true /\ toordinal next = toordinal base + 1
        /\ same_clock next base)
  /\ Recurring.compute_next_due_date env (PStr "2024-12-31T23:59Z")
       (PStr "monthly") empty_world
     = (Return "2025-01-31T23:59:00+00:00", empty_world).
Proof.
  cbv zeta. split; [reflexivity |].
  destruct (proj2 next_due_date_offsets (sample_env (Response 200 ""))
              empty_world "2024-12-31T23:59Z"
              (mkDatetime 2024 12 31 23 59 0 0 (Some 0)) eq_refl)
    as [Hday [_ Hmonth]].
  split.
  - apply Hday. vm_compute. discriminate.
  - apply Hmonth. vm_compute. discriminate.
Defined.

End RecurrenceFacts.

(** ** The backend *)

Module BackendFacts.
Import Backend BackendSpec PyDatetime DatetimeSpec.

(** Case analysis on the innermost scrutinee that is not itself a case
    analysis. *)
Ltac split_atom :=
  match goal with
  | |- context [match ?x with _ => _ end] =>
      lazymatch x with
      | context [match _ with _ => _ end] => fail
      | _ => destruct x eqn:?; cbn [fst snd]
      end
  end.


Ltac report_leaf :=
  cbn [tasks reminders log calls fst snd];
  eexists; eexists; (split; [reflexivity |]);
  unfold publish_report, broker_accepted; cbn [tasks reminders log calls];
  repeat match goal with
         | |- _ /\ _ => split
         end;
  try reflexivity;
  try (eexists; split; reflexivity);
  try (intros Hread Hdump;
       first
         [ intros E; symmetry in E; exact (not_self_app _ _ E)
         | exfalso;
           match goal with
           | H : ?t ?name = Raise _ |- _ =>
               destruct (Hread name) as [? Hv]; rewrite Hv in H; discriminate H
           | H : model_dump _ ?n ?k = Raise _ |- _ =>
               destruct (Hdump n k) as [? Hv]; rewrite Hv in H; discriminate H
           end ]);
  try (intros Hdump;
       first
         [ intros E; symmetry in E; exact (not_self_app _ _ E)
         | exfalso;
           match goal with
           | H : model_dump _ ?n ?k = Raise _ |- _ =>
               destruct (Hdump n k) as [? Hv]; rewrite Hv in H; discriminate H
           end ]);
  try (first
         [ left; split; reflexivity
         | right; eexists; split; [reflexivity |];
           split;
           [ intros Hb;
             first
               [ discriminate
               | match goal with
                 | H : http _ _ = Response ?c ?t, E : (?c =? 200) = true |- _ =>
                     exists t; etransitivity; [exact H | f_equal; lia]
                 end ]
           | intros [? Hr];
             first
               [ reflexivity
               | exfalso;
                 match goal with
                 | H : http _ _ = _ |- _ =>
                     let E := fresh "E" in
                     pose proof (eq_trans (eq_sym H) Hr) as E;
                     first [ discriminate E | injection E as -> _; lia ]
                 end ] ] ]).

Ltac report_proof :=
  intros;
  unfold publish_task_event, publish_task_update_event, publish_reminder_event,
    cloud_event, try_except, bind, lift, request, logger, ret, Exception;
  repeat split_atom; report_leaf.



Lemma publish_reminder_event_reports env w reminder_id task user_id remind_at :
  exists b w',
    publish_reminder_event env reminder_id task user_id remind_at w = (Return b, w')
    /\ publish_report env "reminders" w w' b
    /\ (readable task -> dumps env -> calls w' <> calls w).
Proof. report_proof. Qed.

Lemma report_accepted env topic w w' b :
  publish_report env topic w w' b -> (b = true <-> broker_accepted env w w').
Proof.
  intros [_ [_ [_ [[Hc ->] | [event [Hc Hiff]]]]]]; unfold broker_accepted.
  - split; [discriminate |]. intros [req [text [E _]]]. rewrite Hc in E.
    exfalso. exact (not_self_app _ _ E).
  - split.
    + intros Hb. apply Hiff in Hb as [text Ht]. eauto.
    + intros [req [text [E Ht]]]. rewrite Hc in E.
      apply app_inv_head in E. injection E as <-. apply Hiff. eauto.
Qed.

Lemma publish_reminder_event_returns env w reminder_id task user_id remind_at :
  exists b w',
    publish_reminder_event env reminder_id task user_id remind_at w = (Return b, w')
    /\ (b = true <-> broker_accepted env w w').
Proof.
  destruct (publish_reminder_event_reports env w reminder_id task user_id remind_at)
    as [b [w' [Hrun [Hrep _]]]].
  exists b, w'. split; [exact Hrun | exact (report_accepted _ _ _ _ _ Hrep)].
Qed.


(** C5: [cancel_reminder_job] sends one DELETE and returns [True] exactly
    when the scheduler answers 204 (removed) or 404 (no such job); any
    other status, or an exception, gives [False]. *)
Theorem cancel_missing_job_succeeds (env : Env) (job_name : string) (w : World) :
  exists b w',
    cancel_reminder_job env job_name w = (Return b, w')
    /\ calls w' = (calls w ++ [DELETE (job_url env job_name)])%list
    /\ (b = true <->
        exists text,
          http env (DELETE (job_url env job_name)) = Response 204 text
          \/ http env (DELETE (job_url env job_name)) = Response 404 text).
Proof.
  unfold cancel_reminder_job, try_except, bind, lift, request, logger, ret, Exception.
  destruct (http env (DELETE (job_url env job_name))) as [c t | e] eqn:Hh; cbn [fst snd].
  - destruct (c =? 204) eqn:E204; [| destruct (c =? 404) eqn:E404];
      (eexists; eexists; split; [reflexivity |]; split; [reflexivity |]).
    + split; [intros _ | reflexivity]. exists t. left. f_equal. lia.
    + split; [intros _ | reflexivity]. exists t. right. f_equal. lia.
    + split; [discriminate |].
      intros [x [H | H]]; injection H as -> _; lia.
  - eexists; eexists; split; [reflexivity |]; split; [reflexivity |].
    split; [discriminate | intros [x [H | H]]; discriminate].
Qed.

Lemma now_is_utc (env : Env) : tzinfo (now env) = Some 0.
Proof. reflexivity. Qed.

Lemma instant_replace_tzinfo (t : datetime) (tz : option Z) (off : Z) :
  instant (replace_tzinfo t tz) off = instant t off.
Proof. destruct t. reflexivity. Qed.

Lemma le_of_instants (a b : datetime) (oa ob : Z) :
  tzinfo a = Some oa -> tzinfo b = Some ob ->
  instant a oa <= instant b ob -> le a b = Return true.
Proof.
  intros Ha Hb H. unfold le. rewrite Ha, Hb. f_equal.
  apply Z.leb_le. exact H.
Qed.

(** C6: a reminder whose [remind_at] is not after the present instant is
    refused and the state is left as it was (no row, no job, no call); for
    a caller whose token matches the path the refusal is the 400
    validation error. *)
Theorem past_reminder_is_rejected (env : Env) (user_id : string) (task_id : N)
    (remind_at : datetime) (current_user_id : string) (w : World) :
  utc_instant remind_at <= utc_instant (now env) ->
  exists e,
    create_reminder env user_id task_id remind_at current_user_id w = (Raise e, w)
    /\ (current_user_id = user_id ->
        e = HTTPException 400 (Fmt "remind_at must be in the future" [])).
Proof.
  intros Hpast. unfold create_reminder, verify_user_access.
  destruct (String.eqb current_user_id user_id) eqn:Eu; cbn [negb].
  - assert (Hle : le (match tzinfo remind_at with
                      | None => replace_tzinfo remind_at (Some 0)
                      | Some _ => remind_at
                      end) (now env) = Return true).
    { unfold utc_instant in Hpast. rewrite now_is_utc in Hpast.
      destruct (tzinfo remind_at) as [off |] eqn:Etz.
      - exact (le_of_instants _ _ _ _ Etz (now_is_utc env) Hpast).
      - apply (le_of_instants (replace_tzinfo remind_at (Some 0)) _ 0 0
                 eq_refl (now_is_utc env)).
        rewrite instant_replace_tzinfo. exact Hpast. }
    unfold bind at 1. unfold ret at 1. unfold bind at 1. unfold lift at 1.
    rewrite Hle.
    eexists. split; [reflexivity | auto].
  - eexists. split; [reflexivity |].
    intros ->. rewrite String.eqb_refl in Eu. discriminate.
Qed.

Lemma past_reminder_is_rejected_witness :
  let env := sample_env (Response 200 "") in
  let remind_at := mkDatetime 2025 12 31 23 0 0 0 None in
  utc_instant remind_at <= utc_instant (now env)
  /\ create_reminder env "alice" 1 remind_at "alice" sample_world
     = (Raise (HTTPException 400 (Fmt "remind_at must be in the future" [])),
        sample_world).
Proof.
  cbv zeta.
  assert (H : utc_instant (mkDatetime 2025 12 31 23 0 0 0 None)
              <= utc_instant (now (sample_env (Response 200 ""))))
    by (vm_compute; discriminate).
  split; [exact H |].
  destruct (past_reminder_is_rejected (sample_env (Response 200 "")) "alice" 1
              (mkDatetime 2025 12 31 23 0 0 0 None) "alice" sample_world H)
    as [e [Hrun He]].
  rewrite Hrun, (He eq_refl). reflexivity.
Defined.

(** The cases of [trigger_reminder]: the reminder is fetched by id, the
    task by id and user.  If either is missing the answer is 404 and
    nothing is published or changed; otherwise the publisher is asked for a
    Reminder Event, and its [False] becomes a 500. *)
Lemma trigger_reminder_cases (env : Env) (rq : ReminderTriggerRequest) (w : World) :
  let res := trigger_reminder env rq w in
  match reminders w !! reminder_id rq, task_of_user w (task_id rq) (user_id rq) with
  | Some r, Some t =>
      exists b w1,
        publish_reminder_event env (reminder_id rq) (Task_obj t) (user_id rq)
          (r_remind_at r) (entered w rq) = (Return b, w1)
        /\ (b = true -> res = (Return (PDict [("status", PStr "ok")]), w1))
        /\ (b = false -> exists d, fst res = Raise (HTTPException 500 d))
  | _, _ =>
      exists d, fst res = Raise (HTTPException 404 d)
                /\ calls (snd res) = calls w
                /\ tasks (snd res) = tasks w /\ reminders (snd res) = reminders w
  end.
Proof.
  cbv zeta. unfold trigger_reminder, task_of_user, bind, logger, get_reminder,
    select_task, raise, ret.
  cbn [reminders tasks].
  destruct (reminders w !! reminder_id rq) as [r |] eqn:Er;
    cbn [reminders tasks fst snd calls].
  2: { eexists. repeat split; reflexivity. }
  destruct (tasks w !! task_id rq) as [t |] eqn:Et;
    cbn [reminders tasks fst snd calls].
  2: { eexists. repeat split; reflexivity. }
  destruct (String.eqb (t_user_id t) (user_id rq)) eqn:Eu;
    cbn [reminders tasks fst snd calls].
  2: { eexists. repeat split; reflexivity. }
  destruct (publish_reminder_event_returns env (entered w rq)
              (reminder_id rq) (Task_obj t) (user_id rq) (r_remind_at r))
    as [b [w1 [Hrun _]]].
  exists b, w1. split; [exact Hrun |].
  unfold entered, trigger_log in Hrun. rewrite Hrun.
  split; intros ->; cbn; eauto.
Qed.

(** C7: what the code does where the claim says 404.  The store holds a
    reminder of bob's and a task of alice's; the trigger names bob's
    reminder with alice's task and user id.  No reminder of alice's has that
    id, yet the handler publishes the event and answers ok: the reminder is
    fetched by id alone. *)
Theorem trigger_reminder_ignores_reminder_owner :
  let rq := mkReminderTriggerRequest 2 1 "alice" in
  reminder_of_user sample_world (reminder_id rq) (user_id rq) = None
  /\ fst (trigger_reminder (sample_env (Response 200 "")) rq sample_world)
     = Return (PDict [("status", PStr "ok")])
  /\ exists event,
       calls (snd (trigger_reminder (sample_env (Response 200 "")) rq sample_world))
       = [POST "http://localhost:3500/v1.0/publish/pubsub/reminders" event].
Proof.
  cbv zeta. split; [vm_compute; reflexivity |].
  split; [vm_compute; reflexivity |].
  eexists. vm_compute. reflexivity.
Qed.




End BackendFacts.

(** ** More on the consumers *)

Module ConsumerMore.
Import Consumer ConsumerSpec ConsumerMoreSpec ConsumerFacts PyDatetime DatetimeSpec
  CalendarFacts.


Ltac split_atom :=
  match goal with
  | |- context [match ?x with _ => _ end] =>
      lazymatch x with
      | context [match _ with _ => _ end] => fail
      | _ => destruct x eqn:?; cbn [fst snd]
      end
  end.

(** X1: a run of the audit handler from a session with nothing pending
    either writes nothing, or writes one audit entry together with the
    ledger row of one new id; it makes no outbound call, and anything it
    wrote comes with the answer SUCCESS. *)
Theorem audit_writes_entry_with_ledger_row (env : Env) (event_data : pyval)
    (w : World) :
  pending (session w) = [] ->
  let r := Audit.handle_task_event env event_data w in
  wrote_nothing_or_both (session w) (session (snd r))
  /\ sent (snd r) = sent w
  /\ (session (snd r) <> session w -> fst r = Return SUCCESS).
Proof.
  destruct w as [[p a pend] l s]. cbn [session pending]. intros ->. cbv zeta.
  unfold Audit.handle_task_event, bind, lift, ret, logger, session_get,
    session_add, with_session, session_commit, otry.
  cbn [session processed audit pending log sent].
  repeat (split_atom; cbn [session processed audit pending log sent app insert_rows event_id new_processed]);
    cbn [session processed audit pending log sent app insert_rows event_id new_processed fst snd];
    try (split; [left; reflexivity | split; [reflexivity | intros H; congruence]]).
  all: try match goal with
       | H : ?x = None, H' : ?x = Some _ |- _ => rewrite H in H'; discriminate
       end.
  all: split; [right; eexists; eexists; eexists; split; [eassumption | reflexivity]
              | split; [reflexivity | reflexivity]].
Qed.


Ltac step :=
  cbn [session processed audit pending log sent negb orb andb fst snd obind
         isinstance_str app insert_rows event_id new_processed].


Ltac unfold_handlers :=
  unfold Audit.handle_task_event, Recurring.handle_task_event,
    Notification.handle_reminder_event, Recurring.record_processed,
    Recurring.compute_next_due_date, try_except, post,
    bind, lift, ret, logger, session_get, session_add, with_session,
    session_commit, otry, Exception.

Ltac world_step :=
  cbn [session processed audit pending log sent app insert_rows event_id
         new_processed fst snd].

Ltac success_leaf :=
  world_step;
  first
    [ discriminate
    | intros _;
      repeat match goal with
             | H : ?x = None, H' : context [?x] |- _ =>
                 rewrite H in H'; try discriminate
             end;
      eexists; eexists; eexists;
      split; [reflexivity |]; split; [eassumption |];
      first [ eassumption | apply lookup_insert_eq ] ].

Lemma success_is_recorded (env : Env) (event_data : pyval) (w : World) :
  pending (session w) = [] ->
  (fst (Audit.handle_task_event env event_data w) = Return SUCCESS ->
   recorded_in event_data (session (snd (Audit.handle_task_event env event_data w))))
  /\ (fst (Recurring.handle_task_event env event_data w) = Return SUCCESS ->
      recorded_in event_data (session (snd (Recurring.handle_task_event env event_data w))))
  /\ (fst (Notification.handle_reminder_event env event_data w) = Return SUCCESS ->
      recorded_in event_data
        (session (snd (Notification.handle_reminder_event env event_data w)))).
Proof.
  destruct w as [[p a pend] l s]. cbn [session pending]. intros ->.
  unfold recorded_in.
  repeat split; unfold_handlers; world_step;
    destruct (py_get event_data "id" PNone) as [id |] eqn:Hid;
    world_step; try discriminate;
    repeat (split_atom; world_step); success_leaf.
Qed.

Lemma recorded_is_skipped (env : Env) (event_data : pyval) (w : World) :
  recorded_in event_data (session w) ->
  exists r,
    Audit.handle_task_event env event_data w = (Return SUCCESS, logged w r)
    /\ Recurring.handle_task_event env event_data w = (Return SUCCESS, logged w r)
    /\ Notification.handle_reminder_event env event_data w
       = (Return SUCCESS, logged w r).
Proof.
  intros [id [u [row [Hid [Hu Hrow]]]]].
  pose proof (UUID_truthy _ _ Hu) as Ht.
  exists (skip_record id).
  unfold Audit.handle_task_event, Recurring.handle_task_event,
    Notification.handle_reminder_event, bind, lift, session_get.
  rewrite Hid. cbn. rewrite Ht. cbn. rewrite Hu. cbn. rewrite Hrow. cbn. auto.
Qed.

(** X3: if a delivery is answered SUCCESS, delivering the same envelope
    again, at any later time, is answered SUCCESS and leaves the session and
    the outbound calls as the first delivery left them. *)
Theorem second_delivery_changes_nothing (env env' : Env) (event_data : pyval)
    (w w1 : World) :
  pending (session w) = [] ->
  (Audit.handle_task_event env event_data w = (Return SUCCESS, w1) ->
   exists w2, Audit.handle_task_event env' event_data w1 = (Return SUCCESS, w2)
              /\ session w2 = session w1 /\ sent w2 = sent w1)
  /\ (Recurring.handle_task_event env event_data w = (Return SUCCESS, w1) ->
      exists w2, Recurring.handle_task_event env' event_data w1 = (Return SUCCESS, w2)
                 /\ session w2 = session w1 /\ sent w2 = sent w1)
  /\ (Notification.handle_reminder_event env event_data w = (Return SUCCESS, w1) ->
      exists w2,
        Notification.handle_reminder_event env' event_data w1 = (Return SUCCESS, w2)
        /\ session w2 = session w1 /\ sent w2 = sent w1).
Proof.
  intros Hp.
  destruct (success_is_recorded env event_data w Hp) as [Ha [Hr Hn]].
  repeat split; intros Hrun; rewrite Hrun in *; cbn [fst snd] in *.
  - destruct (recorded_is_skipped env' event_data w1 (Ha eq_refl)) as [r [E _]].
    rewrite E. eexists. repeat split; reflexivity.
  - destruct (recorded_is_skipped env' event_data w1 (Hr eq_refl)) as [r [_ [E _]]].
    rewrite E. eexists. repeat split; reflexivity.
  - destruct (recorded_is_skipped env' event_data w1 (Hn eq_refl)) as [r [_ [_ E]]].
    rewrite E. eexists. repeat split; reflexivity.
Qed.

(** X4: a first delivery of a reminder event logs one notification line
    carrying user, task, title, due time, remind time and reminder id, adds
    the ledger row of the event id, and is answered SUCCESS. *)
Theorem first_reminder_is_notified (env : Env) (d data : list (string * pyval))
    (id : pyval) (u : N) (w : World) :
  pending (session w) = [] ->
  dict_lookup d "id" = Some id -> PyUUID.UUID id = Return u ->
  processed (session w) !! u = None ->
  dict_lookup d "data" = Some (PDict data) ->
  Notification.handle_reminder_event env (PDict d) w
  = (Return SUCCESS,
     mkWorld (recorded env u Notification.SERVICE_NAME (session w))
       (log w ++ [notification_record data]) (sent w)).
Proof.
  destruct w as [[p a pend] l s]. cbn [session pending processed audit sent log].
  intros -> Hid Hu Hfresh Hdata.
  pose proof (UUID_truthy _ _ Hu) as Hidtrue.
  unfold Notification.handle_reminder_event, bind, lift, ret, logger,
    session_get, session_add, with_session, session_commit, py_get,
    notification_record, recorded.
  rewrite Hid. step. rewrite Hidtrue. step. rewrite Hu. step.
  rewrite Hfresh. step. rewrite Hdata. step.
  repeat match goal with
         | |- context [dict_lookup data ?k] => destruct (dict_lookup data k)
         end; step; rewrite Hfresh; reflexivity.
Qed.





Lemma fromisoformat_raises_ValueError s e :
  fromisoformat s = Raise e -> e = ValueError.
Proof.
  unfold fromisoformat. intros Ep.
  repeat match type of Ep with
         | context [match ?x with _ => _ end] =>
             destruct x; try discriminate; try (inversion Ep; reflexivity)
         end.
Qed.

(** The base date is always found, unless the due date is a [datetime]
    object (which [json] never yields). *)
Lemma base_date_found (env : Env) (due : pyval) :
  (forall t, due <> PDatetime t) ->
  exists base,
    (if truthy due
     then otry (let+ s := py_str_replace due (Text.replace "Z" "+00:00") in
                fromisoformat s)
            ValueError_or_AttributeError (fun _ => Return (now env))
     else Return (now env)) = Return base.
Proof.
  intros Hjson. destruct (truthy due); [| eauto].
  destruct due; try (eexists; reflexivity).
  - cbn [py_str_replace obind].
    destruct (fromisoformat (Text.replace "Z" "+00:00" s)) as [b | e] eqn:E.
    + eexists; reflexivity.
    + rewrite (fromisoformat_raises_ValueError _ _ E). eexists; reflexivity.
  - exfalso. exact (Hjson t eq_refl).
Qed.

(** X7: a rule other than "daily", "weekly" and "monthly" gives what
    "daily" gives, and logs one warning; "daily" itself logs nothing. *)
Theorem unknown_rule_counts_as_daily (env : Env) (due rule : pyval) (w : World) :
  (forall t, due <> PDatetime t) ->
  eq_str rule "daily" = false -> eq_str rule "weekly" = false ->
  eq_str rule "monthly" = false ->
  Recurring.compute_next_due_date env due rule w
  = (fst (Recurring.compute_next_due_date env due (PStr "daily") w),
     logged w (unknown_rule_record rule))
  /\ snd (Recurring.compute_next_due_date env due (PStr "daily") w) = w.
Proof.
  intros Hjson Hd Hw Hm.
  destruct (base_date_found env due Hjson) as [base Hbase].
  unfold Recurring.compute_next_due_date, bind, lift, ret, logger.
  rewrite Hd, Hw, Hm, Hbase. change (eq_str (PStr "daily") "daily") with true.
  cbn iota beta.
  destruct (relativedelta_add base (mkRelativedelta 0 1)); split; reflexivity.
Qed.


(** X9: at the end of the calendar [compute_next_due_date] raises: a
    daily step past 9999-12-31 is an [OverflowError], a monthly step out of
    December 9999 a [ValueError]. *)
Theorem next_due_date_past_the_calendar (env : Env) (s : string) (base : datetime)
    (w : World) :
  fromisoformat (Text.replace "Z" "+00:00" s) = Return base ->
  (MAXORDINAL < toordinal base + 1 ->
   Recurring.compute_next_due_date env (PStr s) (PStr "daily") w
   = (Raise OverflowError, w))
  /\ (MAXYEAR < fst (month_after (year base) (month base)) ->
      Recurring.compute_next_due_date env (PStr s) (PStr "monthly") w
      = (Raise ValueError, w)).
Proof.
  intros Hparse.
  pose proof (fromisoformat_valid _ _ Hparse) as Hv.
  pose proof (fromisoformat_nonempty _ _ Hparse) as Hne.
  pose proof (valid_fields _ Hv) as Hd. pose proof Hd as Hd'.
  unfold valid_date, MINYEAR, MAXYEAR in Hd'.
  repeat (apply andb_prop in Hd' as [Hd' ?]).
  unfold Recurring.compute_next_due_date, bind, lift, ret.
  rewrite Hne. unfold py_str_replace, obind, otry. rewrite Hparse.
  cbn iota beta.
  split; intros Hout.
  - change (eq_str (PStr "daily") "daily") with true. cbn iota.
    unfold relativedelta_add. cbn [months days Z.eqb].
    rewrite Z.min_r by lia. unfold replace_ymd. rewrite Hd. cbn iota beta.
    unfold add_days, toordinal in *. cbn [obind year month day].
    set (o := ymd2ord (year base) (month base) (day base)) in *.
    replace ((0 <? o + 1) && (o + 1 <=? MAXORDINAL))
      with false by (symmetry; unfold MAXORDINAL in *; lia).
    reflexivity.
  - change (eq_str (PStr "monthly") "daily") with false.
    change (eq_str (PStr "monthly") "weekly") with false.
    change (eq_str (PStr "monthly") "monthly") with true. cbn iota.
    unfold month_after, MAXYEAR in Hout.
    destruct (month base =? 12) eqn:E12; cbn [fst] in Hout; [| lia].
    unfold relativedelta_add. cbn [months days Z.eqb].
    replace (month base + 1 >? 12) with true by (symmetry; lia).
    unfold replace_ymd, valid_date, MAXYEAR.
    replace (year base + 1 <=? 9999) with false by (symmetry; lia).
    rewrite andb_false_r. reflexivity.
Qed.

Lemma audit_writes_entry_with_ledger_row_witness :
  pending (session empty_world) = []
  /\ wrote_nothing_or_both (session empty_world)
       (session (snd (Audit.handle_task_event (sample_env (Response 200 ""))
                        created_event empty_world))).
Proof.
  split; [reflexivity |].
  exact (proj1 (audit_writes_entry_with_ledger_row (sample_env (Response 200 ""))
                  created_event empty_world eq_refl)).
Defined.


Lemma second_delivery_changes_nothing_witness :
  let env := sample_env (Response 200 "") in
  pending (session empty_world) = []
  /\ exists w1 w2,
       Notification.handle_reminder_event env reminder_event empty_world
       = (Return SUCCESS, w1)
       /\ Notification.handle_reminder_event env reminder_event w1
          = (Return SUCCESS, w2)
       /\ session w2 = session w1 /\ sent w2 = sent w1.
Proof.
  cbv zeta. split; [reflexivity |].
  destruct (Notification.handle_reminder_event (sample_env (Response 200 ""))
              reminder_event empty_world) as [res w1] eqn:Hrun.
  assert (Hres : res = Return SUCCESS)
    by (apply (f_equal fst) in Hrun; vm_compute in Hrun; congruence).
  subst res.
  destruct (proj2 (proj2 (second_delivery_changes_nothing
                            (sample_env (Response 200 ""))
                            (sample_env (Response 200 ""))
                            reminder_event empty_world w1 eq_refl)) Hrun)
    as [w2 H2].
  exists w1, w2. split; [reflexivity | exact H2].
Defined.

Lemma first_reminder_is_notified_witness :
  let env := sample_env (Response 200 "") in
  processed (session empty_world) !! sample_id = None
  /\ exists w',
       Notification.handle_reminder_event env reminder_event empty_world
       = (Return SUCCESS, w')
       /\ length (log w') = 1%nat
       /\ session w' = recorded env sample_id "notification-service"
                         (session empty_world).
Proof.
  cbv zeta. split; [reflexivity |].
  eexists. split.
  - apply (first_reminder_is_notified (sample_env (Response 200 ""))
             [("id", PStr "12345678-1234-5678-1234-567812345678");
              ("data",
               PDict [("reminder_id", PStr "0a0b0c0d-0000-0000-0000-000000000002");
                      ("task_id", PStr "0a0b0c0d-0000-0000-0000-000000000001");
                      ("title", PStr "Water plants");
                      ("user_id", PStr "alice")])]
             [("reminder_id", PStr "0a0b0c0d-0000-0000-0000-000000000002");
              ("task_id", PStr "0a0b0c0d-0000-0000-0000-000000000001");
              ("title", PStr "Water plants");
              ("user_id", PStr "alice")]
             (PStr "12345678-1234-5678-1234-567812345678") sample_id empty_world);
      vm_compute; reflexivity.
  - split; reflexivity.
Defined.



Lemma unknown_rule_counts_as_daily_witness :
  let env := sample_env (Response 200 "") in
  eq_str (PStr "yearly") "daily" = false
  /\ Recurring.compute_next_due_date env (PStr "2026-01-31T00:00:00Z")
       (PStr "yearly") empty_world
     = (Return "2026-02-01T00:00:00+00:00",
        logged empty_world (unknown_rule_record (PStr "yearly"))).
Proof.
  cbv zeta. split; [reflexivity |].
  destruct (unknown_rule_counts_as_daily (sample_env (Response 200 ""))
              (PStr "2026-01-31T00:00:00Z") (PStr "yearly") empty_world)
    as [Hrun _].
  1: { intros t H. discriminate H. }
  1-3: reflexivity.
  rewrite Hrun. reflexivity.
Defined.


Lemma next_due_date_past_the_calendar_witness :
  let env := sample_env (Response 200 "") in
  fromisoformat (Text.replace "Z" "+00:00" "9999-12-31T00:00:00Z")
  = Return (mkDatetime 9999 12 31 0 0 0 0 (Some 0))
  /\ Recurring.compute_next_due_date env (PStr "9999-12-31T00:00:00Z")
       (PStr "daily") empty_world
     = (Raise OverflowError, empty_world)
  /\ Recurring.compute_next_due_date env (PStr "9999-12-31T00:00:00Z")
       (PStr "monthly") empty_world
     = (Raise ValueError, empty_world).
Proof.
  cbv zeta. split; [reflexivity |].
  destruct (next_due_date_past_the_calendar (sample_env (Response 200 ""))
              "9999-12-31T00:00:00Z" (mkDatetime 9999 12 31 0 0 0 0 (Some 0))
              empty_world eq_refl) as [Hday Hmonth].
  split; [apply Hday | apply Hmonth]; vm_compute; reflexivity.
Defined.

End ConsumerMore.

(** ** More on the backend *)

Module BackendMore.
Import Backend BackendSpec BackendMoreSpec BackendFacts PyDatetime DatetimeSpec.

Lemma schedule_reminder_job_returns (env : Env) (job_name : string)
    (schedule_time : datetime) (data : pyval) (w : World) :
  exists b l,
    schedule_reminder_job env job_name schedule_time data w
    = (Return b,
       mkWorld (tasks w) (reminders w) (log w ++ [l])
         (calls w ++ [POST (job_url env job_name)
                        (PDict [("name", PStr job_name);
                                ("schedule", PStr (isoformat schedule_time));
                                ("data", data); ("retries", PInt 3);
                                ("retryDelay", PInt 10)])]))
    /\ (b = true <->
        scheduler_accepted
          (http env (POST (job_url env job_name)
                       (PDict [("name", PStr job_name);
                               ("schedule", PStr (isoformat schedule_time));
                               ("data", data); ("retries", PInt 3);
                               ("retryDelay", PInt 10)])))).
Proof.
  unfold schedule_reminder_job, try_except, bind, request, logger, ret,
    Exception, scheduler_accepted.
  destruct (http env _) as [c t | e] eqn:Hh; cbn [fst snd].
  - destruct ((c =? 200) || (c =? 201)) eqn:Ec; cbn [tasks reminders log calls].
    + eexists. eexists. split; [reflexivity |].
      split; [intros _ | reflexivity]. exists c, t. split; [reflexivity | lia].
    + eexists. eexists. split; [reflexivity |].
      split; [discriminate |]. intros [c' [t' [E Hc]]]. injection E as <- <-. lia.
  - cbn [tasks reminders log calls]. eexists. eexists. split; [reflexivity |].
    split; [discriminate |]. intros [c' [t' [E Hc]]]. discriminate.
Qed.


Lemma create_reminder_runs (env : Env) (user_id : string) (task_id : N)
    (remind_at : datetime) (t : Task) (w : World) :
  utc_instant (now env) < utc_instant remind_at ->
  tasks w !! task_id = Some t -> t_user_id t = user_id ->
  reminders w !! uuid4 env = None ->
  let r := mkReminder (uuid4 env) task_id user_id (reloaded env remind_at)
             (reloaded env (now env)) in
  exists w',
    create_reminder env user_id task_id remind_at user_id w = (Return r, w')
    /\ reminders w' = <[r_id r := r]> (reminders w)
    /\ tasks w' = tasks w
    /\ calls w'
       = (calls w
          ++ [POST (job_url env (job_name_of (r_id r)))
                (PDict [("name", PStr (job_name_of (r_id r)));
                        ("schedule", PStr (isoformat remind_at));
                        ("data", job_data_of r); ("retries", PInt 3);
                        ("retryDelay", PInt 10)])])%list.
Proof.
  intros Hfuture Htask Howner Hfresh. cbv zeta.
  assert (Hle : le (match tzinfo remind_at with
                    | None => replace_tzinfo remind_at (Some 0)
                    | Some _ => remind_at
                    end) (now env) = Return false).
  { unfold utc_instant in Hfuture. rewrite now_is_utc in Hfuture.
    unfold le. rewrite now_is_utc.
    destruct (tzinfo remind_at) as [off |] eqn:Etz.
    - rewrite Etz. f_equal. apply Z.leb_gt. exact Hfuture.
    - cbn [tzinfo replace_tzinfo]. f_equal. apply Z.leb_gt.
      rewrite instant_replace_tzinfo. exact Hfuture. }
  unfold create_reminder, verify_user_access.
  rewrite String.eqb_refl. cbn [negb].
  unfold bind at 1. unfold ret at 1. unfold bind at 1. unfold lift at 1.
  rewrite Hle. unfold bind at 1. unfold select_task. rewrite Htask, Howner.
  rewrite String.eqb_refl. unfold bind at 1. unfold insert_reminder.
  cbn [r_id]. rewrite Hfresh.
  cbn [r_id r_task_id r_user_id r_remind_at r_created_at]. unfold bind at 1.
  match goal with
  | |- context [schedule_reminder_job env ?n ?t ?d ?w0] =>
      destruct (schedule_reminder_job_returns env n t d w0) as [b [l [Hrun _]]];
      rewrite Hrun
  end.
  cbn [tasks reminders log calls].
  destruct b; cbn [negb]; unfold bind, logger, ret;
    cbn [tasks reminders log calls]; eexists; repeat split; reflexivity.
Qed.


(** X12: [create_reminder] answers 403 when the token's user is not the
    user of the path, and 404 when the task does not exist or belongs to
    someone else; in both cases nothing is stored, logged or sent. *)
Theorem create_reminder_refuses_strangers (env : Env) (user_id : string)
    (task_id : N) (remind_at : datetime) (current_user_id : string) (w : World) :
  (current_user_id <> user_id ->
   create_reminder env user_id task_id remind_at current_user_id w
   = (Raise (HTTPException 403 (Fmt "Forbidden" [])), w))
  /\ (current_user_id = user_id ->
      utc_instant (now env) < utc_instant remind_at ->
      task_of_user w task_id current_user_id = None ->
      create_reminder env user_id task_id remind_at current_user_id w
      = (Raise (HTTPException 404 (Fmt "Task not found" [])), w)).
Proof.
  unfold create_reminder, verify_user_access. split.
  - intros Hne. apply String.eqb_neq in Hne. rewrite Hne. reflexivity.
  - intros -> Hfuture Hnone. rewrite String.eqb_refl. cbn [negb].
    assert (Hle : le (match tzinfo remind_at with
                      | None => replace_tzinfo remind_at (Some 0)
                      | Some _ => remind_at
                      end) (now env) = Return false).
    { unfold utc_instant in Hfuture. rewrite now_is_utc in Hfuture.
      unfold le. rewrite now_is_utc.
      destruct (tzinfo remind_at) as [off |] eqn:Etz.
      - rewrite Etz. f_equal. apply Z.leb_gt. exact Hfuture.
      - cbn [tzinfo replace_tzinfo]. f_equal. apply Z.leb_gt.
        rewrite instant_replace_tzinfo. exact Hfuture. }
    unfold bind at 1. unfold ret at 1. unfold bind at 1. unfold lift at 1.
    rewrite Hle. unfold bind at 1. unfold select_task.
    unfold task_of_user in Hnone. rewrite Hnone. reflexivity.
Qed.

Lemma cancel_reminder_job_runs (env : Env) (job_name : string) (w : World) :
  exists b l,
    cancel_reminder_job env job_name w
    = (Return b,
       mkWorld (tasks w) (reminders w) (log w ++ [l])
         (calls w ++ [DELETE (job_url env job_name)])).
Proof.
  unfold cancel_reminder_job, try_except, bind, request, logger, ret, Exception.
  destruct (http env _) as [c t | e]; cbn [fst snd].
  - destruct (c =? 204); [| destruct (c =? 404)];
      cbn [tasks reminders log calls]; eexists; eexists; reflexivity.
  - cbn [tasks reminders log calls]. eexists; eexists; reflexivity.
Qed.

Lemma delete_reminder_runs (env : Env) (user_id : string) (task_id rid : N)
    (r : Reminder) (w : World) :
  reminders w !! rid = Some r -> r_id r = rid ->
  r_task_id r = task_id -> r_user_id r = user_id ->
  exists w',
    delete_reminder env user_id task_id rid user_id w = (Return deleted_message, w')
    /\ reminders w' = delete rid (reminders w)
    /\ tasks w' = tasks w
    /\ calls w' = (calls w ++ [DELETE (job_url env (job_name_of rid))])%list.
Proof.
  intros Hrow Hid Htask Huser.
  unfold delete_reminder, verify_user_access.
  rewrite String.eqb_refl. cbn [negb].
  unfold bind at 1. unfold ret at 1. unfold bind at 1. unfold select_reminder.
  rewrite Hrow, Htask, Huser, N.eqb_refl, String.eqb_refl. cbn [andb].
  unfold bind at 1. rewrite Hid.
  destruct (cancel_reminder_job_runs env ("reminder-" +:+ PyUUID.str rid) w)
    as [b [l Hrun]].
  rewrite Hrun. unfold bind, delete_reminder_row, ret.
  cbn [tasks reminders log calls]. rewrite Hid.
  eexists. repeat split; reflexivity.
Qed.

(** X13: [delete_reminder] on a reminder of that task and user sends one
    DELETE for the reminder's job and removes the row, whatever the
    scheduler answers; on any other reminder id it answers 404 and changes
    nothing. *)
Theorem delete_reminder_removes_row_and_job (env : Env) (user_id : string)
    (task_id rid : N) (w : World) :
  (forall r,
      reminders w !! rid = Some r -> r_id r = rid ->
      r_task_id r = task_id -> r_user_id r = user_id ->
      exists w',
        delete_reminder env user_id task_id rid user_id w
        = (Return deleted_message, w')
        /\ reminders w' = delete rid (reminders w)
        /\ tasks w' = tasks w
        /\ calls w' = (calls w ++ [DELETE (job_url env (job_name_of rid))])%list)
  /\ ((forall r, reminders w !! rid = Some r ->
                 r_task_id r <> task_id \/ r_user_id r <> user_id) ->
      delete_reminder env user_id task_id rid user_id w
      = (Raise (HTTPException 404 (Fmt "Reminder not found" [])), w)).
Proof.
  split.
  - intros r. apply delete_reminder_runs.
  - intros Hother. unfold delete_reminder, verify_user_access.
    rewrite String.eqb_refl. cbn [negb].
    unfold bind at 1. unfold ret at 1. unfold bind at 1. unfold select_reminder.
    destruct (reminders w !! rid) as [r |] eqn:Hrow; [| reflexivity].
    destruct (Hother r eq_refl) as [Hne | Hne].
    + apply N.eqb_neq in Hne. rewrite Hne. reflexivity.
    + apply String.eqb_neq in Hne. rewrite Hne, andb_false_r. reflexivity.
Qed.

(** X14: creating a reminder and then deleting it leaves the reminders
    table as it was, and the DELETE goes to the job URL the POST went to. *)
Theorem create_then_delete_restores_reminders (env env' : Env) (user_id : string)
    (task_id : N) (remind_at : datetime) (t : Task) (w : World) :
  utc_instant (now env) < utc_instant remind_at ->
  tasks w !! task_id = Some t -> t_user_id t = user_id ->
  reminders w !! uuid4 env = None ->
  dapr_sidecar_url env' = dapr_sidecar_url env ->
  exists r w1 w2 job,
    create_reminder env user_id task_id remind_at user_id w = (Return r, w1)
    /\ delete_reminder env' user_id task_id (r_id r) user_id w1
       = (Return deleted_message, w2)
    /\ reminders w2 = reminders w
    /\ calls w2
       = (calls w ++ [POST (job_url env (job_name_of (r_id r))) job;
                      DELETE (job_url env (job_name_of (r_id r)))])%list.
Proof.
  intros Hfuture Htask Howner Hfresh Hurl.
  destruct (create_reminder_runs env user_id task_id remind_at t w
              Hfuture Htask Howner Hfresh) as [w1 [Hc [Hrows [Htasks Hcalls]]]].
  set (r := mkReminder (uuid4 env) task_id user_id (reloaded env remind_at)
              (reloaded env (now env))) in *.
  assert (Hrow : reminders w1 !! r_id r = Some r)
    by (rewrite Hrows; apply lookup_insert_eq).
  destruct (delete_reminder_runs env' user_id task_id (r_id r) r w1
              Hrow eq_refl eq_refl eq_refl) as [w2 [Hd [Hrows2 [_ Hcalls2]]]].
  exists r, w1, w2. eexists. split; [exact Hc |]. split; [exact Hd |].
  split.
  - rewrite Hrows2, Hrows. apply delete_insert_id. exact Hfresh.
  - rewrite Hcalls2, Hcalls. unfold job_url. rewrite Hurl.
    rewrite <- app_assoc. reflexivity.
Qed.

Ltac frame_leaf :=
  cbn [tasks reminders log calls fst snd];
  eexists; eexists; (split; [reflexivity |]);
  unfold published_to; cbn [tasks reminders log calls];
  (split; [reflexivity |]); (split; [reflexivity |]);
  first
    [ left; split; reflexivity
    | right; eexists; split; [reflexivity |];
      split;
      [ intros Hb;
        first
          [ discriminate
          | match goal with
            | H : http _ _ = Response ?c ?t, E : (?c =? 200) = true |- _ =>
                exists t; etransitivity; [exact H | f_equal; lia]
            end ]
      | intros [? Hr];
        first
          [ reflexivity
          | exfalso;
            match goal with
            | H : http _ _ = _ |- _ =>
                let E := fresh "E" in
                pose proof (eq_trans (eq_sym H) Hr) as E;
                first [ discriminate E | injection E as -> _; lia ]
            end ] ] ].

Ltac frame_proof :=
  intros;
  unfold publish_task_event, publish_task_update_event, publish_reminder_event,
    cloud_event, try_except, bind, lift, request, logger, ret, Exception;
  repeat split_atom; frame_leaf.



Lemma publish_reminder_event_frame env w reminder_id task user_id remind_at :
  exists b w',
    publish_reminder_event env reminder_id task user_id remind_at w = (Return b, w')
    /\ published_to env "reminders" w w' b.
Proof. frame_proof. Qed.

(** X15: [trigger_reminder] never changes tasks or reminders and posts
    at most one event, to the topic "reminders"; it answers ok exactly when
    that post was made and the broker answered 200. *)
Theorem trigger_reminder_only_reads_the_store (env : Env)
    (rq : ReminderTriggerRequest) (w : World) :
  let res := trigger_reminder env rq w in
  tasks (snd res) = tasks w /\ reminders (snd res) = reminders w
  /\ (calls (snd res) = calls w
      \/ exists event,
           calls (snd res)
           = (calls w ++ [POST (publish_url env "reminders") event])%list
           /\ (fst res = Return ok_message <->
               exists text,
                 http env (POST (publish_url env "reminders") event)
                 = Response 200 text))
  /\ (fst res = Return ok_message -> calls (snd res) <> calls w).
Proof.
  cbv zeta. unfold trigger_reminder, bind, logger, get_reminder,
    select_task, raise, ret.
  cbn [reminders tasks].
  destruct (reminders w !! reminder_id rq) as [r |] eqn:Er;
    cbn [reminders tasks fst snd calls].
  2: { repeat split; try reflexivity; [left; reflexivity | discriminate]. }
  destruct (tasks w !! task_id rq) as [t |] eqn:Et;
    cbn [reminders tasks fst snd calls].
  2: { repeat split; try reflexivity; [left; reflexivity | discriminate]. }
  destruct (String.eqb (t_user_id t) (user_id rq)) eqn:Eu;
    cbn [reminders tasks fst snd calls].
  2: { repeat split; try reflexivity; [left; reflexivity | discriminate]. }
  match goal with
  | |- context [publish_reminder_event env ?a ?b ?c ?d ?w0] =>
      destruct (publish_reminder_event_frame env w0 a b c d)
        as [ok [w1 [Hrun [Ht [Hr Hc]]]]]; rewrite Hrun
  end.
  cbn [tasks reminders calls log] in Ht, Hr, Hc.
  destruct ok; cbn [negb fst snd tasks reminders calls].
  - split; [exact Ht |]. split; [exact Hr |].
    destruct Hc as [[_ Hf] | [event [Hcalls Hiff]]]; [discriminate |].
    split.
    + right. exists event. split; [exact Hcalls |].
      split; [intros _; apply Hiff; reflexivity | reflexivity].
    + intros _. rewrite Hcalls. intros E. symmetry in E.
      exact (not_self_app _ _ E).
  - split; [exact Ht |]. split; [exact Hr |]. split; [| discriminate].
    destruct Hc as [[Hcalls _] | [event [Hcalls Hiff]]].
    + left. exact Hcalls.
    + right. exists event. split; [exact Hcalls |].
      split; [discriminate |]. intros H. apply Hiff in H. discriminate.
Qed.

Lemma trigger_reminder_found (env : Env) (rq : ReminderTriggerRequest)
    (r : Reminder) (t : Task) (w : World) :
  reminders w !! reminder_id rq = Some r ->
  tasks w !! task_id rq = Some t -> t_user_id t = user_id rq ->
  exists b w',
    publish_reminder_event env (reminder_id rq) (Task_obj t) (user_id rq)
      (r_remind_at r) (entered w rq) = (Return b, w')
    /\ (b = true -> trigger_reminder env rq w = (Return ok_message, w'))
    /\ (b = false ->
        exists w'',
          trigger_reminder env rq w
          = (Raise (HTTPException 500 (Fmt "Failed to publish reminder event" [])),
             w'')).
Proof.
  intros Hr Ht Hu.
  destruct (publish_reminder_event_frame env (entered w rq) (reminder_id rq)
              (Task_obj t) (user_id rq) (r_remind_at r)) as [b [w' [Hrun _]]].
  exists b, w'. split; [exact Hrun |].
  unfold trigger_reminder, bind, logger, get_reminder, select_task, raise, ret.
  cbn [reminders tasks]. rewrite Hr. cbn [reminders tasks]. rewrite Ht, Hu.
  rewrite String.eqb_refl. unfold entered, trigger_log in Hrun. rewrite Hrun.
  split; intros ->; cbn [negb]; eauto.
Qed.

(** X16: the job data of a reminder just created lead the trigger
    endpoint to that reminder and its task: the answer is ok or 500, never
    404. *)
Theorem created_reminder_can_be_triggered (env env' : Env) (user_id : string)
    (task_id : N) (remind_at : datetime) (t : Task) (w : World) :
  utc_instant (now env) < utc_instant remind_at ->
  tasks w !! task_id = Some t -> t_user_id t = user_id ->
  reminders w !! uuid4 env = None ->
  exists r w1 res w2,
    create_reminder env user_id task_id remind_at user_id w = (Return r, w1)
    /\ trigger_reminder env' (mkReminderTriggerRequest (r_id r) task_id user_id) w1
       = (res, w2)
    /\ (res = Return ok_message
        \/ res = Raise (HTTPException 500 (Fmt "Failed to publish reminder event" [])))
    /\ (forall d, res <> Raise (HTTPException 404 d)).
Proof.
  intros Hfuture Htask Howner Hfresh.
  destruct (create_reminder_runs env user_id task_id remind_at t w
              Hfuture Htask Howner Hfresh) as [w1 [Hc [Hrows [Htasks _]]]].
  set (r := mkReminder (uuid4 env) task_id user_id (reloaded env remind_at)
              (reloaded env (now env))) in *.
  set (rq := mkReminderTriggerRequest (r_id r) task_id user_id).
  assert (Hrow : reminders w1 !! reminder_id rq = Some r)
    by (rewrite Hrows; apply lookup_insert_eq).
  assert (Htask1 : tasks w1 !! Backend.task_id rq = Some t)
    by (rewrite Htasks; exact Htask).
  destruct (trigger_reminder_found env' rq r t w1 Hrow Htask1 Howner)
    as [b [w' [_ [Hok Hfail]]]].
  exists r, w1. destruct b.
  - exists (Return ok_message), w'. split; [exact Hc |].
    split; [exact (Hok eq_refl) |]. split; [left; reflexivity | discriminate].
  - destruct (Hfail eq_refl) as [w'' Hrun].
    eexists. exists w''. split; [exact Hc |]. split; [exact Hrun |].
    split; [right; reflexivity | discriminate].
Qed.



Lemma create_reminder_refuses_strangers_witness :
  let env := sample_env (Response 200 "") in
  "mallory" <> "alice"
  /\ create_reminder env "alice" 1 march_first "mallory" sample_world
     = (Raise (HTTPException 403 (Fmt "Forbidden" [])), sample_world)
  /\ task_of_user sample_world 4 "alice" = None
  /\ create_reminder env "alice" 4 march_first "alice" sample_world
     = (Raise (HTTPException 404 (Fmt "Task not found" [])), sample_world).
Proof.
  cbv zeta.
  assert (Hne : "mallory" <> "alice") by discriminate.
  destruct (create_reminder_refuses_strangers (sample_env (Response 200 ""))
              "alice" 1 march_first "mallory" sample_world) as [H403 _].
  destruct (create_reminder_refuses_strangers (sample_env (Response 200 ""))
              "alice" 4 march_first "alice" sample_world) as [_ H404].
  split; [exact Hne |]. split; [exact (H403 Hne) |].
  split; [reflexivity |].
  apply H404; [reflexivity | vm_compute; reflexivity | reflexivity].
Defined.

Lemma delete_reminder_removes_row_and_job_witness :
  let env := sample_env (Failed TransportError) in
  reminders world_with_reminder !! 5%N = Some own_reminder
  /\ (exists w',
        delete_reminder env "alice" 1 5 "alice" world_with_reminder
        = (Return deleted_message, w')
        /\ reminders w' !! 5%N = None)
  /\ delete_reminder env "bob" 1 5 "bob" world_with_reminder
     = (Raise (HTTPException 404 (Fmt "Reminder not found" [])), world_with_reminder).
Proof.
  cbv zeta.
  assert (Hrow : reminders world_with_reminder !! 5%N = Some own_reminder)
    by (vm_compute; reflexivity).
  split; [exact Hrow |]. split.
  - destruct (delete_reminder_removes_row_and_job (sample_env (Failed TransportError))
                "alice" 1 5 world_with_reminder) as [Hok _].
    destruct (Hok own_reminder Hrow eq_refl eq_refl eq_refl)
      as [w' [Hrun [Hrows _]]].
    exists w'. split; [exact Hrun |]. rewrite Hrows. apply lookup_delete_eq.
  - destruct (delete_reminder_removes_row_and_job (sample_env (Failed TransportError))
                "bob" 1 5 world_with_reminder) as [_ Hno].
    apply Hno. intros r Hr. rewrite Hrow in Hr. injection Hr as <-.
    right. discriminate.
Defined.

Lemma create_then_delete_restores_reminders_witness :
  let env := sample_env (Response 200 "") in
  utc_instant (now env) < utc_instant march_first
  /\ exists r w1 w2,
       create_reminder env "alice" 1 march_first "alice" sample_world = (Return r, w1)
       /\ delete_reminder env "alice" 1 (r_id r) "alice" w1
          = (Return deleted_message, w2)
       /\ reminders w2 = reminders sample_world.
Proof.
  cbv zeta.
  assert (Hfuture : utc_instant (now (sample_env (Response 200 "")))
                    < utc_instant march_first) by (vm_compute; reflexivity).
  split; [exact Hfuture |].
  destruct (create_then_delete_restores_reminders (sample_env (Response 200 ""))
              (sample_env (Response 200 "")) "alice" 1 march_first sample_task
              sample_world Hfuture eq_refl eq_refl eq_refl eq_refl)
    as [r [w1 [w2 [job [Hc [Hd [Hrows _]]]]]]].
  exists r, w1, w2. auto.
Defined.

Lemma created_reminder_can_be_triggered_witness :
  let env := sample_env (Response 200 "") in
  utc_instant (now env) < utc_instant march_first
  /\ exists r w1 res w2,
       create_reminder env "alice" 1 march_first "alice" sample_world = (Return r, w1)
       /\ trigger_reminder env (mkReminderTriggerRequest (r_id r) 1 "alice") w1
          = (res, w2)
       /\ forall d, res <> Raise (HTTPException 404 d).
Proof.
  cbv zeta.
  assert (Hfuture : utc_instant (now (sample_env (Response 200 "")))
                    < utc_instant march_first) by (vm_compute; reflexivity).
  split; [exact Hfuture |].
  destruct (created_reminder_can_be_triggered (sample_env (Response 200 ""))
              (sample_env (Response 200 "")) "alice" 1 march_first sample_task
              sample_world Hfuture eq_refl eq_refl eq_refl)
    as [r [w1 [res [w2 [Hc [Ht [_ Hno]]]]]]].
  exists r, w1, res, w2. auto.
Defined.

End BackendMore.
